(** * mcpx: a shallow embedding of the daemon core

    The development follows the Go sources of the bridge:
    - [mcp.go]     transport, SSE decoding, the MCP client, the token lookup;
    - [daemon.go]  the daemon state, client acquisition, the tools cache,
                   hot reload and command dispatch;
    - [oauth.go]   the loopback authorization-code flow;
    - [config.go]  the wire and persisted record types.

    Go maps become [gmap]s, a nil map is [None] of an [option (gmap _ _)],
    [(T, error)] results become [result T], and everything the program reads
    from outside (clock, files, network, random numbers, the browser
    callback) is read from an explicit world.  A JSON number is kept as an
    integer and a timestamp as whole seconds or nanoseconds; a single
    operation sees one reading of the clock. *)

From Stdlib Require Import ZArith Ascii String.
From stdpp Require Import gmap strings list fin_maps pretty.

#[local] Set Warnings "-register-all".
#[local] Open Scope string_scope.

(** ** Results and errors

    A Go [error] is represented by its message. *)

Inductive result (A : Type) : Type :=
| Ok (a : A)
| Err (msg : string).
Arguments Ok {A} a.
Arguments Err {A} msg.

(** ** JSON values

    [JSON] is both the tree of a JSON document and the dynamic value that
    [encoding/json] stores in an [any]: [nil], [bool], [float64], [string],
    [[]any] and [map[string]any].  Numbers are kept as integers; the
    development never computes with fractional values. *)

Inductive JSON : Type :=
| JNull
| JBool (b : bool)
| JNum (n : Z)
| JStr (s : string)
| JArr (l : list JSON)
| JObj (m : gmap string JSON).

(** ** The [strings] package on byte strings *)

Module Strings.

Fixpoint HasPrefix (s p : string) : bool :=
  match p, s with
  | EmptyString, _ => true
  | String c p', String d s' => if decide (c = d) then HasPrefix s' p' else false
  | String _ _, EmptyString => false
  end.

Fixpoint drop (n : nat) (s : string) : string :=
  match n, s with
  | O, _ => s
  | S n', String _ s' => drop n' s'
  | S _, EmptyString => EmptyString
  end.

Definition TrimPrefix (s p : string) : string :=
  if HasPrefix s p then drop (String.length p) s else s.

Fixpoint Contains (s sub : string) : bool :=
  HasPrefix s sub ||
  match s with
  | EmptyString => false
  | String _ s' => Contains s' sub
  end.

(** [strings.Split(s, sep)] for a one-byte separator: always at least one
    piece, and a trailing separator yields a trailing empty piece. *)
Fixpoint Split (s : string) (sep : ascii) : list string :=
  match s with
  | EmptyString => [EmptyString]
  | String c s' =>
      if decide (c = sep) then EmptyString :: Split s' sep
      else match Split s' sep with
           | [] => [String c EmptyString]
           | piece :: rest => String c piece :: rest
           end
  end.

Definition bytes (l : list nat) : string :=
  fold_right (fun n s => String (ascii_of_nat n) s) EmptyString l.

(** The UTF-8 encodings of the runes for which [unicode.IsSpace] holds:
    U+0009..U+000D, U+0020, U+0085, U+00A0, U+1680, U+2000..U+200A,
    U+2028, U+2029, U+202F, U+205F, U+3000. *)
Definition space_encodings : list string :=
  map bytes
    [ [9]; [10]; [11]; [12]; [13]; [32];
      [194; 133]; [194; 160];
      [225; 154; 128];
      [226; 128; 128]; [226; 128; 129]; [226; 128; 130]; [226; 128; 131];
      [226; 128; 132]; [226; 128; 133]; [226; 128; 134]; [226; 128; 135];
      [226; 128; 136]; [226; 128; 137]; [226; 128; 138];
      [226; 128; 168]; [226; 128; 169]; [226; 128; 175];
      [226; 129; 159];
      [227; 128; 128] ].

Fixpoint strip_one (encs : list string) (s : string) : option string :=
  match encs with
  | [] => None
  | e :: encs' =>
      if HasPrefix s e then Some (drop (String.length e) s)
      else strip_one encs' s
  end.

Fixpoint strip_many (fuel : nat) (encs : list string) (s : string) : string :=
  match fuel with
  | O => s
  | S fuel' =>
      match strip_one encs s with
      | Some s' => strip_many fuel' encs s'
      | None => s
      end
  end.

Definition TrimLeftSpace (s : string) : string :=
  strip_many (String.length s) space_encodings s.

Definition TrimRightSpace (s : string) : string :=
  String.rev
    (strip_many (String.length s) (map String.rev space_encodings) (String.rev s)).

(** [strings.TrimSpace]: leading white space goes first, then trailing
    white space of what is left. *)
Definition TrimSpace (s : string) : string :=
  TrimRightSpace (TrimLeftSpace s).

Definition nl : ascii := ascii_of_nat 10.

End Strings.

(** ** Wire records of [config.go] *)

Record RPCError := mkRPCError {
  rpc_Code : Z;
  rpc_Message : string;
}.

Record MCPResponse := mkMCPResponse {
  resp_JSONRPC : string;
  resp_ID : string;
  resp_Result : option (gmap string JSON);
  resp_Error : option RPCError;
}.

(** ** SSE decoding ([parseSSEResponse], mcp.go)

    [unmarshal] is [json.Unmarshal] into an [MCPResponse]. *)

Section SSE.

Variable unmarshal : string -> result MCPResponse.

Definition dataPayload (line : string) : string :=
  Strings.TrimSpace (Strings.TrimPrefix line "data:").

(** The [for _, line := range lines] loop with its early [return]. *)
Fixpoint scanDataLines (lines : list string) : option MCPResponse :=
  match lines with
  | [] => None
  | line :: rest =>
      if Strings.HasPrefix line "data:" then
        let dataStr := dataPayload line in
        if negb (String.eqb dataStr "") then
          match unmarshal dataStr with
          | Ok resp => Some resp
          | Err _ => scanDataLines rest
          end
        else scanDataLines rest
      else scanDataLines rest
  end.

Definition sseLines (text : string) : list string :=
  Strings.Split (Strings.TrimSpace text) Strings.nl.

Definition parseSSEResponse (text : string) : result MCPResponse :=
  match scanDataLines (sseLines text) with
  | Some resp => Ok resp
  | None =>
      match unmarshal text with
      | Ok resp => Ok resp
      | Err e => Err ("failed to parse response: " ++ e)
      end
  end.



End SSE.

(** ** [encoding/json] on JSON trees

    [Marshal] and [Unmarshal] are modelled between Go values and JSON trees;
    the text layer is an oracle of the environment.  Keys are matched
    exactly (Go would also accept a key that differs only in letter case).

    Field decoders: an absent key or a [null] leaves the field at its zero
    value, a value of the wrong kind is an [UnmarshalTypeError] ([None]). *)

Module Json.

Definition field_string (m : gmap string JSON) (k : string) : option string :=
  match m !! k with
  | None | Some JNull => Some ""
  | Some (JStr s) => Some s
  | Some _ => None
  end.

Definition field_int (m : gmap string JSON) (k : string) : option Z :=
  match m !! k with
  | None | Some JNull => Some 0%Z
  | Some (JNum n) => Some n
  | Some _ => None
  end.

Definition field_bool (m : gmap string JSON) (k : string) : option bool :=
  match m !! k with
  | None | Some JNull => Some false
  | Some (JBool b) => Some b
  | Some _ => None
  end.

(** A [map[string]any] field; [None] is the nil map. *)
Definition field_map (m : gmap string JSON) (k : string)
  : option (option (gmap string JSON)) :=
  match m !! k with
  | None | Some JNull => Some None
  | Some (JObj o) => Some (Some o)
  | Some _ => None
  end.

(** An [any] field: [JNull] is the nil interface. *)
Definition field_any (m : gmap string JSON) (k : string) : JSON :=
  match m !! k with
  | None => JNull
  | Some v => v
  end.

(** A pointer-to-struct field. *)
Definition field_ptr {A} (dec : JSON -> option A) (m : gmap string JSON) (k : string)
  : option (option A) :=
  match m !! k with
  | None | Some JNull => Some None
  | Some v => match dec v with Some a => Some (Some a) | None => None end
  end.

(** Decoding a struct: [null] is a no-op on the zero value, an object is
    decoded field by field, anything else is a type error. *)
Definition decode_struct {A} (zero : A) (fields : gmap string JSON -> option A)
    (j : JSON) : option A :=
  match j with
  | JNull => Some zero
  | JObj m => fields m
  | _ => None
  end.

(** Field encoders.  [omitempty] drops the field when [keep] is false. *)
Definition put (k : string) (v : JSON) (m : gmap string JSON) : gmap string JSON :=
  <[k := v]> m.

Definition put_omitempty (keep : bool) (k : string) (v : JSON)
    (m : gmap string JSON) : gmap string JSON :=
  if keep then <[k := v]> m else m.

Definition nonempty_string (s : string) : bool := negb (String.eqb s "").

Definition nonzero (n : Z) : bool := negb (Z.eqb n 0).

(** [len(m) != 0] for a possibly nil map. *)
Definition nonempty_map {V} (m : option (gmap string V)) : bool :=
  match m with
  | None => false
  | Some o => negb (bool_decide (o = ∅))
  end.

Definition map_json (m : option (gmap string JSON)) : JSON :=
  match m with
  | None => JNull
  | Some o => JObj o
  end.

Definition non_nil (j : JSON) : bool :=
  match j with JNull => false | _ => true end.

End Json.

(** *** [Tool] (config.go) *)

Record Tool := mkTool {
  tool_Name : string;
  tool_Description : string;
  tool_Parameters : option (gmap string JSON);
}.

Definition encodeTool (t : Tool) : JSON :=
  JObj (Json.put "name" (JStr (tool_Name t))
       (Json.put_omitempty (Json.nonempty_string (tool_Description t))
          "description" (JStr (tool_Description t))
       (Json.put_omitempty (Json.nonempty_map (tool_Parameters t))
          "parameters" (Json.map_json (tool_Parameters t)) ∅))).


(** *** [DaemonCommand] (daemon.go) *)

Record DaemonCommand := mkDaemonCommand {
  cmd_Action : string;
  cmd_Server : string;
  cmd_Tool : string;
  cmd_Arguments : option (gmap string JSON);
}.

Definition encodeDaemonCommand (c : DaemonCommand) : JSON :=
  JObj (Json.put "action" (JStr (cmd_Action c))
       (Json.put_omitempty (Json.nonempty_string (cmd_Server c))
          "server" (JStr (cmd_Server c))
       (Json.put_omitempty (Json.nonempty_string (cmd_Tool c))
          "tool" (JStr (cmd_Tool c))
       (Json.put_omitempty (Json.nonempty_map (cmd_Arguments c))
          "arguments" (Json.map_json (cmd_Arguments c)) ∅)))).

Definition decodeDaemonCommand : JSON -> option DaemonCommand :=
  Json.decode_struct (mkDaemonCommand "" "" "" None) (fun m =>
    action ← Json.field_string m "action";
    server ← Json.field_string m "server";
    tool ← Json.field_string m "tool";
    arguments ← Json.field_map m "arguments";
    Some (mkDaemonCommand action server tool arguments)).

(** *** [ErrorResponse] and [Response]

    [Data] is an [any]; it holds the JSON form of the value put in it. *)

Record ErrorResponse := mkErrorResponse {
  err_Code : string;
  err_Message : string;
}.

Record Response := mkResponse {
  r_OK : bool;
  r_Data : JSON;
  r_Error : option ErrorResponse;
}.

Definition encodeErrorResponse (e : ErrorResponse) : JSON :=
  JObj (Json.put "code" (JStr (err_Code e))
       (Json.put "message" (JStr (err_Message e)) ∅)).

Definition decodeErrorResponse : JSON -> option ErrorResponse :=
  Json.decode_struct (mkErrorResponse "" "") (fun m =>
    code ← Json.field_string m "code";
    message ← Json.field_string m "message";
    Some (mkErrorResponse code message)).

Definition encodeResponse (r : Response) : JSON :=
  JObj (Json.put "ok" (JBool (r_OK r))
       (Json.put_omitempty (Json.non_nil (r_Data r)) "data" (r_Data r)
       (Json.put_omitempty (bool_decide (is_Some (r_Error r))) "error"
          (from_option encodeErrorResponse JNull (r_Error r)) ∅))).

Definition decodeResponse : JSON -> option Response :=
  Json.decode_struct (mkResponse false JNull None) (fun m =>
    ok ← Json.field_bool m "ok";
    error ← Json.field_ptr decodeErrorResponse m "error";
    Some (mkResponse ok (Json.field_any m "data") error)).

(** *** [TokenData]

    [ExpiresAt] is a [float64] holding Unix seconds; the program only ever
    stores whole seconds in it, and it is kept as an integer here. *)

Record TokenData := mkTokenData {
  tok_AccessToken : string;
  tok_RefreshToken : string;
  tok_ExpiresIn : Z;
  tok_ExpiresAt : Z;
  tok_TokenType : string;
}.


Definition decodeTokenData : JSON -> option TokenData :=
  Json.decode_struct (mkTokenData "" "" 0 0 "") (fun m =>
    access ← Json.field_string m "access_token";
    refresh ← Json.field_string m "refresh_token";
    expires_in ← Json.field_int m "expires_in";
    expires_at ← Json.field_int m "expires_at";
    token_type ← Json.field_string m "token_type";
    Some (mkTokenData access refresh expires_in expires_at token_type)).

(** *** [MCPResponse] decoding *)

Definition decodeRPCError : JSON -> option RPCError :=
  Json.decode_struct (mkRPCError 0 "") (fun m =>
    code ← Json.field_int m "code";
    message ← Json.field_string m "message";
    Some (mkRPCError code message)).

Definition decodeMCPResponse : JSON -> option MCPResponse :=
  Json.decode_struct (mkMCPResponse "" "" None None) (fun m =>
    jsonrpc ← Json.field_string m "jsonrpc";
    id ← Json.field_string m "id";
    result ← Json.field_map m "result";
    error ← Json.field_ptr decodeRPCError m "error";
    Some (mkMCPResponse jsonrpc id result error)).

(** ** Configuration records (config.go) *)

Record OAuthConfig := mkOAuthConfig {
  oa_AuthURL : string;
  oa_TokenURL : string;
  oa_RegistrationURL : string;
  oa_ClientID : string;
  oa_ClientSecret : string;
  oa_Scopes : list string;
  oa_Scope : string;
  oa_Resource : string;
}.

(** Modelled from the spec: the [LocalConfig] struct behind
    [ServerConfig.Local] is not declared in the sources at hand; the
    specification gives it a command, its arguments and extra environment. *)
Record LocalConfig := mkLocalConfig {
  lc_Command : string;
  lc_Args : list string;
  lc_Env : gmap string string;
}.

(** [SessionBased] and [Local] are read by mcp.go and daemon.go and set by
    the tests; the struct declaration at hand predates them. *)
Record ServerConfig := mkServerConfig {
  sc_URL : string;
  sc_Headers : gmap string string;
  sc_OAuth : option OAuthConfig;
  sc_Scope : string;
  sc_SessionBased : bool;
  sc_Local : option LocalConfig;
}.

Record Config := mkConfig {
  cfg_Servers : gmap string ServerConfig;
}.

Record ClientRegistration := mkClientRegistration {
  reg_ClientID : string;
  reg_ClientSecret : string;
}.

(** [oldConfig.Servers[name]] of an absent key: the zero [ServerConfig]. *)
Definition zeroServerConfig : ServerConfig :=
  mkServerConfig "" ∅ None "" false None.

(** ** The world

    Files of the state directory, the clock, and the trace of what the
    program did to the outside.  [w_write_error] is the error, if any, that
    a write under the state directory meets. *)

Inductive file (A : Type) : Type :=
| FileAbsent
| FileUnreadable (msg : string)
| FileData (a : A).
Arguments FileAbsent {A}.
Arguments FileUnreadable {A} msg.
Arguments FileData {A} a.

Inductive Body : Type :=
| BodyNone
| BodyJSON (j : JSON)
| BodyForm (values : gmap string string)
| BodyRaw (s : string).

Record HTTPRequest := mkHTTPRequest {
  req_Method : string;
  req_URL : string;
  req_Header : gmap string string;
  req_Body : Body;
}.

Record HTTPResponse := mkHTTPResponse {
  hr_StatusCode : Z;
  hr_Header : gmap string string;
  hr_Body : result string;
}.

(** [resp.Header.Get(key)] *)
Definition headerGet (h : gmap string string) (key : string) : string :=
  default "" (h !! key).

Inductive Event : Type :=
| EvHTTP (req : HTTPRequest)
| EvClose (server : string)
| EvBrowser (url : string)
| EvStopAll.

Record World := mkWorld {
  w_clock : Z;
  w_config_file : file Config;
  w_sessions_file : file (option (gmap string string));
  w_tokens_file : file (option (gmap string TokenData));
  w_registrations_file : file (option (gmap string ClientRegistration));
  w_write_error : option string;
  w_trace : list Event;
}.

(** [time.Now().Unix()]; the clock counts nanoseconds. *)
Definition unixNow (w : World) : Z := (w_clock w / 1000000000)%Z.

Definition ToolsCacheTTL : Z := (300 * 1000000000)%Z.

Definition emit (ev : Event) (w : World) : World :=
  mkWorld (w_clock w) (w_config_file w) (w_sessions_file w) (w_tokens_file w)
    (w_registrations_file w) (w_write_error w) (w_trace w ++ [ev])%list.

Definition set_sessions_file (f : file (option (gmap string string))) (w : World) : World :=
  mkWorld (w_clock w) (w_config_file w) f (w_tokens_file w)
    (w_registrations_file w) (w_write_error w) (w_trace w).

Definition set_tokens_file (f : file (option (gmap string TokenData))) (w : World) : World :=
  mkWorld (w_clock w) (w_config_file w) (w_sessions_file w) f
    (w_registrations_file w) (w_write_error w) (w_trace w).

Definition set_registrations_file (f : file (option (gmap string ClientRegistration)))
    (w : World) : World :=
  mkWorld (w_clock w) (w_config_file w) (w_sessions_file w) (w_tokens_file w)
    f (w_write_error w) (w_trace w).

(** [OAuthDiscovery] (oauth.go) *)
Record OAuthDiscovery := mkOAuthDiscovery {
  od_AuthURL : string;
  od_TokenURL : string;
  od_RegistrationURL : string;
  od_Scopes : list string;
  od_Resource : string;
}.

(** What the program cannot compute by itself. Every oracle that stands for
    an exchange with the outside sees the trace so far. *)
Record Env := mkEnv {
  (** [http.Client.Do] *)
  env_http : list Event -> HTTPRequest -> result HTTPResponse;
  (** [http.NewRequest] refusing a URL *)
  env_bad_url : string -> option string;
  (** [uuid.New().String()] *)
  env_uuid : list Event -> string;
  (** [json.Unmarshal]: the whole text is one JSON value *)
  env_json_parse : string -> result JSON;
  (** [json.NewDecoder(r).Decode]: the first JSON value of a stream *)
  env_json_stream : string -> result JSON;
  (** [textproto.CanonicalMIMEHeaderKey], applied by [Header.Set] *)
  env_canonical_key : string -> string;
  (** [crypto/rand.Read] of [n] bytes *)
  env_rand : list Event -> nat -> result string;
  env_base64url : string -> string;
  env_sha256 : string -> string;
  (** [url.Values.Encode] and concatenation into the authorization URL *)
  env_encode_query : gmap string string -> string;
  (** [discoverOAuthEndpoints]: the metadata lookups of RFC 9728 / RFC 8414 *)
  env_discover : list Event -> string -> result OAuthDiscovery;
  (** the queries that reach [/callback] before the listener shuts down *)
  env_callbacks : list Event -> list (gmap string string);
  (** [LocalManager.GetStatus] in its JSON form *)
  env_process_status : list Event -> list string -> JSON;
}.

(** ** Computations

    A computation runs in a world and either finishes or panics (a nil
    dereference takes the process down). *)

Inductive outcome (A : Type) : Type :=
| Done (a : A)
| Panic.
Arguments Done {A} a.
Arguments Panic {A}.

Definition M (A : Type) : Type := World -> outcome A * World.

Definition ret {A} (a : A) : M A := fun w => (Done a, w).

Definition bind {A B} (m : M A) (k : A -> M B) : M B :=
  fun w =>
    match m w with
    | (Done a, w') => k a w'
    | (Panic, w') => (Panic, w')
    end.

Definition panic {A} : M A := fun w => (Panic, w).

Definition get_world : M World := fun w => (Done w, w).

Definition modify_world (f : World -> World) : M unit := fun w => (Done tt, f w).

Notation "'let*' x ':=' m 'in' k" := (bind m (fun x => k))
  (at level 10, x pattern, m at level 100, k at level 200).

Notation "m ';;' k" := (bind m (fun _ => k))
  (at level 100, k at level 200, right associativity).

(** ** Persisted stores (config.go) *)

Definition LoadConfig (w : World) : result Config :=
  match w_config_file w with
  | FileAbsent => Ok (mkConfig ∅)
  | FileUnreadable e => Err e
  | FileData c => Ok c
  end.

Definition LoadSessions (w : World) : result (option (gmap string string)) :=
  match w_sessions_file w with
  | FileAbsent => Ok (Some ∅)
  | FileUnreadable e => Err e
  | FileData m => Ok m
  end.

Definition LoadTokens (w : World) : result (option (gmap string TokenData)) :=
  match w_tokens_file w with
  | FileAbsent => Ok (Some ∅)
  | FileUnreadable e => Err e
  | FileData m => Ok m
  end.

Definition LoadRegistrations (w : World)
  : result (option (gmap string ClientRegistration)) :=
  match w_registrations_file w with
  | FileAbsent => Ok (Some ∅)
  | FileUnreadable e => Err e
  | FileData m => Ok m
  end.

Definition SaveSessions (sessions : gmap string string) : M (option string) :=
  fun w =>
    match w_write_error w with
    | Some e => (Done (Some e), w)
    | None => (Done None, set_sessions_file (FileData (Some sessions)) w)
    end.

Definition SaveTokens (tokens : gmap string TokenData) : M (option string) :=
  fun w =>
    match w_write_error w with
    | Some e => (Done (Some e), w)
    | None => (Done None, set_tokens_file (FileData (Some tokens)) w)
    end.

(** [m[k]] with the comma-ok form, on a map that may be nil. *)
Definition lookup_nilable {V} (m : option (gmap string V)) (k : string) : option V :=
  match m with
  | None => None
  | Some o => o !! k
  end.

(** [if m == nil { m = make(...) }] *)
Definition or_empty {V} (m : option (gmap string V)) : gmap string V :=
  match m with
  | None => ∅
  | Some o => o
  end.

(** [regs[serverName] = reg] panics when the file held [null]: the map is
    nil and no error was reported. *)
Definition SaveRegistration (serverName : string) (reg : ClientRegistration)
  : M (option string) :=
  fun w =>
    let regs :=
      match LoadRegistrations w with
      | Ok m => m
      | Err _ => Some ∅
      end in
    match regs with
    | None => (Panic, w)
    | Some m =>
        match w_write_error w with
        | Some e => (Done (Some e), w)
        | None =>
            (Done None,
             set_registrations_file (FileData (Some (<[serverName := reg]> m))) w)
        end
    end.

(** ** The MCP client (mcp.go) *)

Record MCPClient := mkMCPClient {
  c_config : ServerConfig;
  c_serverName : string;
  c_sessionID : string;
  c_oauthToken : string;
  c_persistent : bool;
  c_initialized : bool;
}.

Definition NewMCPClient (serverName : string) (config : ServerConfig) : MCPClient :=
  mkMCPClient config serverName "" "" (sc_SessionBased config) false.

Definition SetOAuthToken (token : string) (c : MCPClient) : MCPClient :=
  mkMCPClient (c_config c) (c_serverName c) (c_sessionID c) token
    (c_persistent c) (c_initialized c).

Definition SetSessionID (id : string) (c : MCPClient) : MCPClient :=
  mkMCPClient (c_config c) (c_serverName c) id (c_oauthToken c)
    (c_persistent c) (c_initialized c).

(** [Close]: idle connections are dropped and the session is forgotten. *)
Definition Close (c : MCPClient) : M MCPClient :=
  modify_world (emit (EvClose (c_serverName c)));;
  ret (mkMCPClient (c_config c) (c_serverName c) "" (c_oauthToken c)
         (c_persistent c) false).

(** The message of a [json] error raised while filling a Go value; its
    exact text belongs to the library. *)
Definition json_type_error : string := "json: cannot unmarshal value".

Inductive RequestResult : Type :=
| ReqFail (sessionID : string) (err : string)
| ReqDone (resp : option MCPResponse) (sessionID : string).

Definition encodeMCPRequest (method id : string) (params : JSON) : JSON :=
  JObj (Json.put "jsonrpc" (JStr "2.0")
       (Json.put "method" (JStr method)
       (Json.put "id" (JStr id)
       (Json.put_omitempty (Json.non_nil params) "params" params ∅)))).

Definition defaultHeaders : gmap string string :=
  <["Content-Type" := "application/json"]>
    (<["Accept" := "application/json, text/event-stream"]> ∅).

Definition initializeParams : JSON :=
  JObj (<["protocolVersion" := JStr "2024-11-05"]>
       (<["capabilities" := JObj ∅]>
       (<["clientInfo" := JObj (<["name" := JStr "mcpx"]>
                               (<["version" := JStr "0.1.0"]> ∅))]> ∅))).

Definition toolsCallParams (toolName : string) (arguments : option (gmap string JSON))
  : JSON :=
  JObj (<["name" := JStr toolName]>
       (<["arguments" := Json.map_json arguments]> ∅)).

(** The anonymous struct [ListTools] decodes the [tools] array into, taken
    over into a [Tool] field by field ([inputSchema] becomes
    [Parameters]). *)
Definition decodeRawTool : JSON -> option Tool :=
  Json.decode_struct (mkTool "" "" None) (fun m =>
    name ← Json.field_string m "name";
    description ← Json.field_string m "description";
    inputSchema ← Json.field_map m "inputSchema";
    Some (mkTool name description inputSchema)).

Definition decodeRawTools (j : JSON) : option (list Tool) :=
  match j with
  | JNull => Some []
  | JArr l => mapM decodeRawTool l
  | _ => None
  end.

Section Client.

Variable env : Env.

(** [json.Unmarshal(data, &resp)] with [resp] an [MCPResponse]. *)
Definition unmarshalMCPResponse (text : string) : result MCPResponse :=
  match env_json_parse env text with
  | Err e => Err e
  | Ok j =>
      match decodeMCPResponse j with
      | Some resp => Ok resp
      | None => Err json_type_error
      end
  end.

(** [json.Unmarshal(data, &mcpResp)] with [mcpResp] a [*MCPResponse]: a
    [null] document leaves the pointer nil and reports no error. *)
Definition unmarshalMCPResponsePtr (text : string) : result (option MCPResponse) :=
  match env_json_parse env text with
  | Err e => Err e
  | Ok JNull => Ok None
  | Ok j =>
      match decodeMCPResponse j with
      | Some resp => Ok (Some resp)
      | None => Err json_type_error
      end
  end.

(** [for k, v := range src { req.Header.Set(k, v) }] *)
Definition setHeaders (src : gmap string string) (h : gmap string string)
  : gmap string string :=
  map_fold (fun k v acc => <[env_canonical_key env k := v]> acc) h src.

Definition requestHeaders (c : MCPClient) : gmap string string :=
  let h1 := setHeaders (sc_Headers (c_config c)) (setHeaders defaultHeaders ∅) in
  let h2 :=
    if negb (String.eqb (c_oauthToken c) "")
    then <[env_canonical_key env "Authorization" := "Bearer " ++ c_oauthToken c]> h1
    else h1 in
  if negb (String.eqb (c_sessionID c) "")
  then <[env_canonical_key env "Mcp-Session-Id" := c_sessionID c]> h2
  else h2.

Definition Request (c : MCPClient) (method : string) (params : JSON)
  : M RequestResult :=
  let* w := get_world in
  let body := encodeMCPRequest method (env_uuid env (w_trace w)) params in
  match env_bad_url env (sc_URL (c_config c)) with
  | Some e => ret (ReqFail "" ("failed to create request: " ++ e))
  | None =>
      let req := mkHTTPRequest "POST" (sc_URL (c_config c)) (requestHeaders c)
                   (BodyJSON body) in
      modify_world (emit (EvHTTP req));;
      match env_http env (w_trace w) req with
      | Err e => ret (ReqFail "" ("request failed: " ++ e))
      | Ok resp =>
          let newSessionID :=
            headerGet (hr_Header resp) (env_canonical_key env "Mcp-Session-Id") in
          match hr_Body resp with
          | Err e => ret (ReqFail newSessionID ("failed to read response: " ++ e))
          | Ok respBody =>
              let contentType :=
                headerGet (hr_Header resp) (env_canonical_key env "Content-Type") in
              let parsed :=
                if Strings.Contains contentType "text/event-stream"
                then match parseSSEResponse unmarshalMCPResponse respBody with
                     | Ok r => Ok (Some r)
                     | Err e => Err e
                     end
                else unmarshalMCPResponsePtr respBody in
              match parsed with
              | Err e => ret (ReqFail newSessionID ("failed to parse response: " ++ e))
              | Ok mcpResp => ret (ReqDone mcpResp newSessionID)
              end
          end
      end
  end.

(** [Initialize].  The session cache is consulted only for servers that
    are not session-based. *)
Definition cachedSession (c : MCPClient) : M (option string) :=
  if negb (sc_SessionBased (c_config c)) then
    let* w := get_world in
    match LoadSessions w with
    | Ok sessions => ret (lookup_nilable sessions (c_serverName c))
    | Err _ => ret None
    end
  else ret None.

Definition Initialize (c : MCPClient) : M (MCPClient * option string) :=
  let* cached := cachedSession c in
  match cached with
  | Some sessionID => ret (SetSessionID sessionID c, None)
  | None =>
      let* r := Request c "initialize" initializeParams in
      match r with
      | ReqFail _ err => ret (c, Some err)
      | ReqDone None _ => panic
      | ReqDone (Some resp) sessionID =>
          match resp_Error resp with
          | Some e => ret (c, Some ("initialize failed: " ++ rpc_Message e))
          | None =>
              if negb (String.eqb sessionID "") then
                let c' := SetSessionID sessionID c in
                if negb (sc_SessionBased (c_config c)) then
                  let* w := get_world in
                  let sessions :=
                    match LoadSessions w with
                    | Ok m => or_empty m
                    | Err _ => ∅
                    end in
                  SaveSessions (<[c_serverName c := sessionID]> sessions);;
                  ret (c', None)
                else ret (c', None)
              else ret (c, None)
          end
      end
  end.

Definition ListTools (c : MCPClient) : M (MCPClient * result (list Tool)) :=
  let* (c1, err) := Initialize c in
  match err with
  | Some e => ret (c1, Err e)
  | None =>
      let* r := Request c1 "tools/list" JNull in
      match r with
      | ReqFail _ e => ret (c1, Err e)
      | ReqDone None _ => panic
      | ReqDone (Some resp) _ =>
          match resp_Error resp with
          | Some e => ret (c1, Err ("list tools failed: " ++ rpc_Message e))
          | None =>
              match resp_Result resp with
              | None => ret (c1, Err "unexpected response format")
              | Some result =>
                  match result !! "tools" with
                  | None => ret (c1, Err "no tools in response")
                  | Some toolsRaw =>
                      match decodeRawTools toolsRaw with
                      | None => ret (c1, Err json_type_error)
                      | Some tools => ret (c1, Ok tools)
                      end
                  end
              end
          end
      end
  end.

Definition CallTool (c : MCPClient) (toolName : string)
    (arguments : option (gmap string JSON))
  : M (MCPClient * result (option (gmap string JSON))) :=
  let* (c1, err) := Initialize c in
  match err with
  | Some e => ret (c1, Err e)
  | None =>
      let* r := Request c1 "tools/call" (toolsCallParams toolName arguments) in
      match r with
      | ReqFail _ e => ret (c1, Err e)
      | ReqDone None _ => panic
      | ReqDone (Some resp) _ =>
          match resp_Error resp with
          | Some e => ret (c1, Err ("tool call failed: " ++ rpc_Message e))
          | None => ret (c1, Ok (resp_Result resp))
          end
      end
  end.

End Client.

(** ** Token lookup and refresh (mcp.go) *)

Section Tokens.

Variable env : Env.

Definition getClientID (config : ServerConfig) : string :=
  match sc_OAuth config with
  | Some oa => if negb (String.eqb (oa_ClientID oa) "") then oa_ClientID oa else "mcpx"
  | None => "mcpx"
  end.

(** [json.NewDecoder(resp.Body).Decode(&v)] *)
Definition decodeBody {A} (dec : JSON -> option A) (body : result string) : result A :=
  match body with
  | Err e => Err e
  | Ok text =>
      match env_json_stream env text with
      | Err e => Err e
      | Ok j =>
          match dec j with
          | Some a => Ok a
          | None => Err json_type_error
          end
      end
  end.

(** [ExpiresAt = now + ExpiresIn] when the response carries [expires_in]. *)
Definition stampExpiry (now : Z) (t : TokenData) : TokenData :=
  if (0 <? tok_ExpiresIn t)%Z
  then mkTokenData (tok_AccessToken t) (tok_RefreshToken t) (tok_ExpiresIn t)
         (now + tok_ExpiresIn t)%Z (tok_TokenType t)
  else t.

Definition keepRefreshToken (old : string) (t : TokenData) : TokenData :=
  if String.eqb (tok_RefreshToken t) ""
  then mkTokenData (tok_AccessToken t) old (tok_ExpiresIn t)
         (tok_ExpiresAt t) (tok_TokenType t)
  else t.

(** [tokens, _ := LoadTokens(); if tokens == nil { ... }; tokens[name] = t;
    SaveTokens(tokens)] *)
Definition storeToken (serverName : string) (t : TokenData) : M (option string) :=
  let* w := get_world in
  let tokens :=
    match LoadTokens w with
    | Ok m => or_empty m
    | Err _ => ∅
    end in
  SaveTokens (<[serverName := t]> tokens).

Definition RefreshOAuthToken (serverName : string) (serverConfig : ServerConfig)
    (tokenData : TokenData) : M (result string) :=
  match sc_OAuth serverConfig with
  | None => ret (Err "no token URL configured")
  | Some oa =>
      if String.eqb (oa_TokenURL oa) "" then ret (Err "no token URL configured")
      else
        let data := "grant_type=refresh_token&refresh_token="
                      ++ tok_RefreshToken tokenData
                      ++ "&client_id=" ++ getClientID serverConfig in
        match env_bad_url env (oa_TokenURL oa) with
        | Some e => ret (Err e)
        | None =>
            let req :=
              mkHTTPRequest "POST" (oa_TokenURL oa)
                (<[env_canonical_key env "Content-Type" :=
                     "application/x-www-form-urlencoded"]> ∅)
                (BodyRaw data) in
            let* w := get_world in
            modify_world (emit (EvHTTP req));;
            match env_http env (w_trace w) req with
            | Err e => ret (Err e)
            | Ok resp =>
                if negb (hr_StatusCode resp =? 200)%Z
                then ret (Err ("token refresh failed: " ++ pretty (hr_StatusCode resp)))
                else
                  match decodeBody decodeTokenData (hr_Body resp) with
                  | Err e => ret (Err e)
                  | Ok newTokenData =>
                      let newTokenData :=
                        keepRefreshToken (tok_RefreshToken tokenData)
                          (stampExpiry (unixNow w) newTokenData) in
                      storeToken serverName newTokenData;;
                      ret (Ok (tok_AccessToken newTokenData))
                  end
            end
        end
  end.

(** The expiry test of [GetTokenForServer]: the record carries an expiry
    and the clock is past it less the 60 s buffer. *)
Definition tokenExpired (now : Z) (tokenData : TokenData) : bool :=
  (0 <? tok_ExpiresAt tokenData)%Z && (tok_ExpiresAt tokenData - 60 <? now)%Z.

Definition GetTokenForServer (serverName : string) (serverConfig : ServerConfig)
  : M (string * option string) :=
  let* w := get_world in
  match LoadTokens w with
  | Err _ => ret ("", None)
  | Ok tokens =>
      match lookup_nilable tokens serverName with
      | None => ret ("", None)
      | Some tokenData =>
          if tokenExpired (unixNow w) tokenData then
            if negb (String.eqb (tok_RefreshToken tokenData) "") then
              let* r := RefreshOAuthToken serverName serverConfig tokenData in
              match r with
              | Err _ => ret ("", None)
              | Ok newToken =>
                  if String.eqb newToken "" then ret ("", None)
                  else ret (newToken, None)
              end
            else ret ("", None)
          else ret (tok_AccessToken tokenData, None)
      end
  end.

End Tokens.

(** ** The daemon (daemon.go) *)

Definition ErrInvalidArgs : string := "INVALID_ARGS".
Definition ErrMCPError : string := "MCP_ERROR".
Definition ErrNotFound : string := "NOT_FOUND".
Definition ErrUnknownAction : string := "UNKNOWN_ACTION".

Definition errResponse (code message : string) : Response :=
  mkResponse false JNull (Some (mkErrorResponse code message)).

Definition okResponse (data : JSON) : Response :=
  mkResponse true data None.

Record CachedTools := mkCachedTools {
  ct_Tools : list Tool;
  ct_Expires : Z;
}.

(** The local manager is kept as the names of the processes it tracks. *)
Record MCPDaemon := mkMCPDaemon {
  d_config : Config;
  d_clients : gmap string MCPClient;
  d_toolsCache : gmap string CachedTools;
  d_processes : list string;
  d_running : bool;
}.

Definition NewMCPDaemon : M (result MCPDaemon) :=
  let* w := get_world in
  match LoadConfig w with
  | Err e => ret (Err e)
  | Ok config => ret (Ok (mkMCPDaemon config ∅ ∅ [] true))
  end.

Definition set_clients (clients : gmap string MCPClient) (d : MCPDaemon) : MCPDaemon :=
  mkMCPDaemon (d_config d) clients (d_toolsCache d) (d_processes d) (d_running d).

Definition set_toolsCache (cache : gmap string CachedTools) (d : MCPDaemon) : MCPDaemon :=
  mkMCPDaemon (d_config d) (d_clients d) cache (d_processes d) (d_running d).

Definition set_config (config : Config) (d : MCPDaemon) : MCPDaemon :=
  mkMCPDaemon config (d_clients d) (d_toolsCache d) (d_processes d) (d_running d).

(** [ServerInfo] as the [servers] action marshals it ([HasAuth] is left
    unset there and dropped by [omitempty]). *)
Definition encodeServerInfo (entry : string * ServerConfig) : JSON :=
  JObj (Json.put "name" (JStr entry.1)
       (Json.put "url" (JStr (sc_URL entry.2)) ∅)).

Section Daemon.

Variable env : Env.

Definition getClient (d : MCPDaemon) (serverName : string)
  : M (MCPDaemon * result MCPClient) :=
  match d_clients d !! serverName with
  | Some client => ret (d, Ok client)
  | None =>
      match cfg_Servers (d_config d) !! serverName with
      | None => ret (d, Err ("server '" ++ serverName ++ "' not configured"))
      | Some serverConfig =>
          let client := NewMCPClient serverName serverConfig in
          let* (token, _) := GetTokenForServer env serverName serverConfig in
          let client :=
            if negb (String.eqb token "") then SetOAuthToken token client else client in
          ret (set_clients (<[serverName := client]> (d_clients d)) d, Ok client)
      end
  end.

(** The cache probe at the head of [getTools]. *)
Definition freshTools (d : MCPDaemon) (serverName : string) (w : World)
  : option (list Tool) :=
  match d_toolsCache d !! serverName with
  | Some cached => if (w_clock w <? ct_Expires cached)%Z then Some (ct_Tools cached) else None
  | None => None
  end.

(** The client is held by pointer: what [ListTools] and [CallTool] change
    in it is seen through the daemon's map. *)
Definition getTools (d : MCPDaemon) (serverName : string)
  : M (MCPDaemon * result (list Tool)) :=
  let* w := get_world in
  match freshTools d serverName w with
  | Some tools => ret (d, Ok tools)
  | None =>
      let* (d1, rc) := getClient d serverName in
      match rc with
      | Err e => ret (d1, Err e)
      | Ok client =>
          let* (client', rt) := ListTools env client in
          let d2 := set_clients (<[serverName := client']> (d_clients d1)) d1 in
          match rt with
          | Err e => ret (d2, Err e)
          | Ok tools =>
              let* w' := get_world in
              ret (set_toolsCache
                     (<[serverName := mkCachedTools tools (w_clock w' + ToolsCacheTTL)%Z]>
                        (d_toolsCache d2)) d2,
                   Ok tools)
          end
      end
  end.

Definition callTool (d : MCPDaemon) (serverName toolName : string)
    (arguments : option (gmap string JSON))
  : M (MCPDaemon * result (option (gmap string JSON))) :=
  let* (d1, rc) := getClient d serverName in
  match rc with
  | Err e => ret (d1, Err e)
  | Ok client =>
      let* (client', r) := CallTool env client toolName arguments in
      ret (set_clients (<[serverName := client']> (d_clients d1)) d1, r)
  end.

(** The test of [reloadConfig] on one client: its server is gone, or its
    URL or session mode changed. *)
Definition specChanged (oldConfig newConfig : Config) (name : string) : bool :=
  match cfg_Servers newConfig !! name with
  | None => true
  | Some newServerConfig =>
      let oldServerConfig := default zeroServerConfig (cfg_Servers oldConfig !! name) in
      negb (String.eqb (sc_URL oldServerConfig) (sc_URL newServerConfig))
      || negb (Bool.eqb (sc_SessionBased oldServerConfig) (sc_SessionBased newServerConfig))
  end.

(** One turn of [for name, client := range d.clients]. *)
Definition reloadClient (oldConfig : Config) (d : MCPDaemon)
    (entry : string * MCPClient) : M MCPDaemon :=
  if specChanged oldConfig (d_config d) entry.1 then
    Close entry.2;;
    ret (set_toolsCache (delete entry.1 (d_toolsCache d))
           (set_clients (delete entry.1 (d_clients d)) d))
  else ret d.

Fixpoint forEach {A S} (step : S -> A -> M S) (l : list A) (s : S) : M S :=
  match l with
  | [] => ret s
  | a :: l' =>
      let* s' := step s a in
      forEach step l' s'
  end.

Definition reloadConfig (d : MCPDaemon) : M (MCPDaemon * option string) :=
  let* w := get_world in
  match LoadConfig w with
  | Err e => ret (d, Some e)
  | Ok config =>
      let oldConfig := d_config d in
      let* d' := forEach (reloadClient oldConfig) (map_to_list (d_clients d))
                   (set_config config d) in
      ret (d', None)
  end.

Definition closeClient (d : MCPDaemon) (entry : string * MCPClient) : M MCPDaemon :=
  Close entry.2;;
  ret (set_clients (delete entry.1 (d_clients d)) d).

Definition closeAllClients (d : MCPDaemon) : M MCPDaemon :=
  let* d' := forEach closeClient (map_to_list (d_clients d)) d in
  ret (set_toolsCache ∅ d').

Definition stopLocalServers (d : MCPDaemon) : M MCPDaemon :=
  modify_world (emit EvStopAll);;
  ret (mkMCPDaemon (d_config d) (d_clients d) (d_toolsCache d) [] (d_running d)).

Definition localCount (config : Config) : Z :=
  Z.of_nat (size (filter (fun entry => is_Some (sc_Local entry.2)) (cfg_Servers config))).

Definition handleCommand (d : MCPDaemon) (cmd : DaemonCommand)
  : M (MCPDaemon * Response) :=
  if String.eqb (cmd_Action cmd) "ping" then
    ret (d, okResponse (JStr "pong"))
  else if String.eqb (cmd_Action cmd) "reload" then
    let* (d', err) := reloadConfig d in
    match err with
    | Some e => ret (d', errResponse ErrMCPError e)
    | None => ret (d', okResponse (JStr "config reloaded"))
    end
  else if String.eqb (cmd_Action cmd) "servers" then
    ret (d, okResponse
              (JObj (<["servers" :=
                        JArr (encodeServerInfo <$> map_to_list (cfg_Servers (d_config d)))]>
                       ∅)))
  else if String.eqb (cmd_Action cmd) "tools" then
    if String.eqb (cmd_Server cmd) "" then
      ret (d, errResponse ErrInvalidArgs "server name required")
    else
      let* (d', r) := getTools d (cmd_Server cmd) in
      match r with
      | Err e => ret (d', errResponse ErrMCPError e)
      | Ok tools =>
          ret (d', okResponse
                     (JObj (<["server" := JStr (cmd_Server cmd)]>
                           (<["tools" := JArr (encodeTool <$> tools)]> ∅))))
      end
  else if String.eqb (cmd_Action cmd) "call" then
    if String.eqb (cmd_Server cmd) "" || String.eqb (cmd_Tool cmd) "" then
      ret (d, errResponse ErrInvalidArgs "server and tool names required")
    else
      let* (d', r) := callTool d (cmd_Server cmd) (cmd_Tool cmd) (cmd_Arguments cmd) in
      match r with
      | Err e => ret (d', errResponse ErrMCPError e)
      | Ok result =>
          ret (d', okResponse
                     (JObj (<["server" := JStr (cmd_Server cmd)]>
                           (<["tool" := JStr (cmd_Tool cmd)]>
                           (<["result" := Json.map_json result]> ∅)))))
      end
  else if String.eqb (cmd_Action cmd) "status" then
    let* w := get_world in
    ret (d, okResponse
              (JObj (<["daemon" := JStr "running"]>
                    (<["servers" := JNum (Z.of_nat (size (cfg_Servers (d_config d))))]>
                    (<["local" := JNum (localCount (d_config d))]>
                    (<["processes" :=
                        env_process_status env (w_trace w) (d_processes d)]> ∅))))))
  else if String.eqb (cmd_Action cmd) "shutdown" then
    let* d' := stopLocalServers
                 (mkMCPDaemon (d_config d) (d_clients d) (d_toolsCache d)
                    (d_processes d) false) in
    ret (d', okResponse (JStr "shutting down"))
  else
    ret (d, errResponse ErrUnknownAction ("unknown action: " ++ cmd_Action cmd)).

End Daemon.

(** *** The socket (daemon.go)

    One connection carries one command and one response, both as JSON. *)

Definition ErrParseError : string := "PARSE_ERROR".
Definition ErrDaemonError : string := "DAEMON_ERROR".

Section Socket.

Variable env : Env.

(** [handleConnection], from the JSON value read off the connection to the
    one written back. *)
Definition handleConnection (d : MCPDaemon) (received : JSON) : M (MCPDaemon * JSON) :=
  match decodeDaemonCommand received with
  | None => ret (d, encodeResponse (errResponse ErrParseError json_type_error))
  | Some cmd =>
      let* (d', response) := handleCommand env d cmd in
      ret (d', encodeResponse response)
  end.

(** [DaemonSend] against the running daemon [d]: the command is encoded
    onto the socket and the reply decoded. *)
Definition DaemonSend (d : MCPDaemon) (cmd : DaemonCommand)
  : M (MCPDaemon * result Response) :=
  let* (d', reply) := handleConnection d (encodeDaemonCommand cmd) in
  match decodeResponse reply with
  | None => ret (d', Err json_type_error)
  | Some resp => ret (d', Ok resp)
  end.

End Socket.

(** ** The authorization-code flow (oauth.go) *)

Definition redirectURI : string := "http://localhost:8085/callback".

Record OAuthCallbackServer := mkOAuthCallbackServer {
  cb_authCode : string;
  cb_state : string;
  cb_err : string;
}.

Definition newOAuthCallbackServer : OAuthCallbackServer :=
  mkOAuthCallbackServer "" "" "".

(** [query.Get(key)] *)
Definition queryGet (query : gmap string string) (key : string) : string :=
  default "" (query !! key).

Definition handleCallback (s : OAuthCallbackServer) (query : gmap string string)
  : OAuthCallbackServer :=
  if negb (String.eqb (queryGet query "code") "") then
    mkOAuthCallbackServer (queryGet query "code") (queryGet query "state") (cb_err s)
  else if negb (String.eqb (queryGet query "error") "") then
    mkOAuthCallbackServer (cb_authCode s) (cb_state s) (queryGet query "error")
  else s.

Definition decodeRegistration : JSON -> option ClientRegistration :=
  Json.decode_struct (mkClientRegistration "" "") (fun m =>
    client_id ← Json.field_string m "client_id";
    client_secret ← Json.field_string m "client_secret";
    Some (mkClientRegistration client_id client_secret)).

(** The request that trades the authorization code for a token. *)
Definition tokenExchangeForm (code clientID codeVerifier clientSecret : string)
  : gmap string string :=
  let form :=
    <["grant_type" := "authorization_code"]>
      (<["code" := code]>
      (<["redirect_uri" := redirectURI]>
      (<["client_id" := clientID]>
      (<["code_verifier" := codeVerifier]> ∅)))) in
  if negb (String.eqb clientSecret "") then <["client_secret" := clientSecret]> form
  else form.

Definition isTokenExchange (ev : Event) : bool :=
  match ev with
  | EvHTTP req =>
      match req_Body req with
      | BodyForm values => bool_decide (values !! "grant_type" = Some "authorization_code")
      | _ => false
      end
  | _ => false
  end.

Section OAuth.

Variable env : Env.

Definition generatePKCE : M (result (string * string)) :=
  let* w := get_world in
  match env_rand env (w_trace w) 32 with
  | Err e => ret (Err e)
  | Ok b =>
      let verifier := env_base64url env b in
      ret (Ok (verifier, env_base64url env (env_sha256 env verifier)))
  end.

Definition generateState : M (result string) :=
  let* w := get_world in
  match env_rand env (w_trace w) 16 with
  | Err e => ret (Err e)
  | Ok b => ret (Ok (env_base64url env b))
  end.

(** [waitForCallback]: the handler runs once for every query that reaches
    the listener before it shuts down; none at all is the timeout. *)
Definition waitForCallback (s : OAuthCallbackServer) : M OAuthCallbackServer :=
  let* w := get_world in
  ret (fold_left handleCallback (env_callbacks env (w_trace w)) s).

Definition registrationBody (redirect scopes : string) : JSON :=
  let regData :=
    <["client_name" := JStr "mcpx"]>
      (<["redirect_uris" := JArr [JStr redirect]]>
      (<["grant_types" := JArr [JStr "authorization_code"; JStr "refresh_token"]]>
      (<["response_types" := JArr [JStr "code"]]> ∅))) in
  JObj (if negb (String.eqb scopes "") then <["scope" := JStr scopes]> regData
        else regData).

(** A request built with [req, _ := http.NewRequest(...)]: a refused URL
    leaves [req] nil and the next [req.Header.Set] panics. *)
Definition doDynamicClientRegistration (registrationURL redirect scopes : string)
  : M (result ClientRegistration) :=
  match env_bad_url env registrationURL with
  | Some _ => panic
  | None =>
      let req :=
        mkHTTPRequest "POST" registrationURL
          (<[env_canonical_key env "Content-Type" := "application/json"]> ∅)
          (BodyJSON (registrationBody redirect scopes)) in
      let* w := get_world in
      modify_world (emit (EvHTTP req));;
      match env_http env (w_trace w) req with
      | Err e => ret (Err ("registration request failed: " ++ e))
      | Ok resp =>
          if negb (hr_StatusCode resp =? 200)%Z && negb (hr_StatusCode resp =? 201)%Z
          then ret (Err ("registration failed: " ++ pretty (hr_StatusCode resp)
                           ++ " - " ++ match hr_Body resp with Ok b => b | Err _ => "" end))
          else
            match decodeBody env decodeRegistration (hr_Body resp) with
            | Err e => ret (Err e)
            | Ok reg => ret (Ok reg)
            end
      end
  end.

Definition discover (serverName : string) (serverConfig : ServerConfig)
  : M (result OAuthDiscovery) :=
  let configured :=
    match sc_OAuth serverConfig with
    | Some oa => if String.eqb (oa_AuthURL oa) "" then None else Some oa
    | None => None
    end in
  match configured with
  | None =>
      let* w := get_world in
      ret (env_discover env (w_trace w) (sc_URL serverConfig))
  | Some oa =>
      ret (Ok (mkOAuthDiscovery (oa_AuthURL oa) (oa_TokenURL oa) (oa_RegistrationURL oa)
                 (oa_Scopes oa) (sc_URL serverConfig)))
  end.

Fixpoint joinStrings (l : list string) (sep : string) : string :=
  match l with
  | [] => ""
  | [s] => s
  | s :: l' => s ++ sep ++ joinStrings l' sep
  end.

Definition chooseScope (serverConfig : ServerConfig) (discovery : OAuthDiscovery) : string :=
  let oauthScope := match sc_OAuth serverConfig with Some oa => oa_Scope oa | None => "" end in
  if negb (String.eqb oauthScope "") then oauthScope
  else if negb (String.eqb (sc_Scope serverConfig) "") then sc_Scope serverConfig
  else joinStrings (od_Scopes discovery) " ".

(** Client credentials: from the configuration, else from a saved
    registration, else from dynamic registration. *)
Definition clientCredentials (serverName : string) (serverConfig : ServerConfig)
    (discovery : OAuthDiscovery) (scope : string) : M (string * string) :=
  let configured :=
    match sc_OAuth serverConfig with
    | Some oa => (oa_ClientID oa, oa_ClientSecret oa)
    | None => ("", "")
    end in
  let* w := get_world in
  let saved :=
    if String.eqb configured.1 "" then
      match LoadRegistrations w with
      | Ok regs =>
          match lookup_nilable regs serverName with
          | Some reg => (reg_ClientID reg, reg_ClientSecret reg)
          | None => configured
          end
      | Err _ => configured
      end
    else configured in
  if String.eqb saved.1 "" && negb (String.eqb (od_RegistrationURL discovery) "") then
    let* r := doDynamicClientRegistration (od_RegistrationURL discovery) redirectURI scope in
    match r with
    | Err _ => ret saved
    | Ok reg =>
        SaveRegistration serverName reg;;
        ret (reg_ClientID reg, reg_ClientSecret reg)
    end
  else ret saved.

Definition authParams (clientID state codeChallenge resource scope : string)
  : gmap string string :=
  let params :=
    <["response_type" := "code"]>
      (<["client_id" := clientID]>
      (<["redirect_uri" := redirectURI]>
      (<["state" := state]>
      (<["code_challenge" := codeChallenge]>
      (<["code_challenge_method" := "S256"]>
      (<["resource" := resource]> ∅)))))) in
  if negb (String.eqb scope "") then <["scope" := scope]> params else params.

(** The exchange of the code for a token. *)
Definition exchangeCode (serverName : string) (discovery : OAuthDiscovery)
    (code clientID clientSecret codeVerifier : string) : M (option string) :=
  match env_bad_url env (od_TokenURL discovery) with
  | Some _ => panic
  | None =>
      let req :=
        mkHTTPRequest "POST" (od_TokenURL discovery)
          (<[env_canonical_key env "Content-Type" :=
               "application/x-www-form-urlencoded"]> ∅)
          (BodyForm (tokenExchangeForm code clientID codeVerifier clientSecret)) in
      let* w := get_world in
      modify_world (emit (EvHTTP req));;
      match env_http env (w_trace w) req with
      | Err e => ret (Some ("token exchange failed: " ++ e))
      | Ok resp =>
          if negb (hr_StatusCode resp =? 200)%Z && negb (hr_StatusCode resp =? 201)%Z
          then ret (Some ("token exchange failed: " ++ pretty (hr_StatusCode resp)
                            ++ " - " ++ match hr_Body resp with Ok b => b | Err _ => "" end))
          else
            match decodeBody env decodeTokenData (hr_Body resp) with
            | Err e => ret (Some e)
            | Ok tokenResp =>
                let* saved := storeToken serverName (stampExpiry (unixNow w) tokenResp) in
                match saved with
                | Some e => ret (Some ("failed to save token: " ++ e))
                | None => ret None
                end
            end
      end
  end.

(** What the flow holds when the browser has been sent off. *)
Record FlowContext := mkFlowContext {
  fc_discovery : OAuthDiscovery;
  fc_clientID : string;
  fc_clientSecret : string;
  fc_codeVerifier : string;
  fc_state : string;
}.

(** [DoOAuthFlow] up to the return of [waitForCallback]. *)
Definition awaitAuthorization (serverName : string) (serverConfig : ServerConfig)
  : M (result (FlowContext * OAuthCallbackServer)) :=
  let* found := discover serverName serverConfig in
  match found with
  | Err e => ret (Err e)
  | Ok discovery =>
      if String.eqb (od_AuthURL discovery) "" || String.eqb (od_TokenURL discovery) ""
      then ret (Err "OAuth config requires auth_url and token_url")
      else
        let scope := chooseScope serverConfig discovery in
        let* (clientID, clientSecret) :=
          clientCredentials serverName serverConfig discovery scope in
        if String.eqb clientID "" then
          ret (Err "no client_id and dynamic registration failed")
        else
          let* pkce := generatePKCE in
          match pkce with
          | Err e => ret (Err e)
          | Ok (codeVerifier, codeChallenge) =>
              let* st := generateState in
              match st with
              | Err e => ret (Err e)
              | Ok state =>
                  let fullAuthURL :=
                    od_AuthURL discovery ++ "?"
                      ++ env_encode_query env
                           (authParams clientID state codeChallenge
                              (od_Resource discovery) scope) in
                  modify_world (emit (EvBrowser fullAuthURL));;
                  let* callbackServer := waitForCallback newOAuthCallbackServer in
                  ret (Ok (mkFlowContext discovery clientID clientSecret
                             codeVerifier state,
                           callbackServer))
              end
          end
  end.

(** [DoOAuthFlow] from the checks on the callback onwards. *)
Definition completeFlow (serverName : string) (ctx : FlowContext)
    (callbackServer : OAuthCallbackServer) : M (option string) :=
  if negb (String.eqb (cb_err callbackServer) "") then
    ret (Some ("authorization error: " ++ cb_err callbackServer))
  else if String.eqb (cb_authCode callbackServer) "" then
    ret (Some "authorization timed out or was cancelled")
  else if negb (String.eqb (cb_state callbackServer) (fc_state ctx)) then
    ret (Some "state mismatch - possible CSRF attack")
  else
    exchangeCode serverName (fc_discovery ctx) (cb_authCode callbackServer)
      (fc_clientID ctx) (fc_clientSecret ctx) (fc_codeVerifier ctx).

Definition DoOAuthFlow (serverName : string) (serverConfig : ServerConfig)
  : M (option string) :=
  let* r := awaitAuthorization serverName serverConfig in
  match r with
  | Err e => ret (Some e)
  | Ok (ctx, callbackServer) => completeFlow serverName ctx callbackServer
  end.

End OAuth.

(** ** The persisted maps as JSON (config.go)

    [SaveTokens], [SaveSessions] and [SaveRegistration] marshal a map keyed
    by server name; the loaders unmarshal it. *)





(** ** The one-shot commands (main.go)

    [ok] and [errExit] print a [Response] and leave the process: a command
    is modelled by the response it prints. *)

Definition ErrInvalidJSON : string := "INVALID_JSON".
Definition ErrAuthExpired : string := "AUTH_EXPIRED".

Module Main.

Section Commands.

Variable env : Env.

(** [json.Unmarshal([]byte(argsJSON), &arguments)] *)
Definition unmarshalArguments (argsJSON : string)
  : result (option (gmap string JSON)) :=
  match env_json_parse env argsJSON with
  | Err e => Err e
  | Ok JNull => Ok None
  | Ok (JObj m) => Ok (Some m)
  | Ok _ => Err json_type_error
  end.

(** [NewMCPClient] followed by the token lookup, as both commands do. *)
Definition newClient (serverName : string) (serverConfig : ServerConfig)
  : M MCPClient :=
  let client := NewMCPClient serverName serverConfig in
  let* (token, _) := GetTokenForServer env serverName serverConfig in
  ret (if negb (String.eqb token "") then SetOAuthToken token client else client).

Definition notConfigured (serverName : string) : Response :=
  errResponse ErrNotFound
    ("Server '" ++ serverName ++ "' not configured. Run --servers to list.").

Definition listTools (serverName : string) : M Response :=
  let* w := get_world in
  match LoadConfig w with
  | Err e => ret (errResponse ErrMCPError ("Failed to load config: " ++ e))
  | Ok config =>
      match cfg_Servers config !! serverName with
      | None => ret (notConfigured serverName)
      | Some serverConfig =>
          let* client := newClient serverName serverConfig in
          let* (_, r) := ListTools env client in
          match r with
          | Err e => ret (errResponse ErrMCPError e)
          | Ok tools =>
              ret (okResponse
                     (JObj (<["server" := JStr serverName]>
                           (<["tools" := JArr (encodeTool <$> tools)]> ∅))))
          end
      end
  end.

Definition callTool (serverName toolName argsJSON : string) : M Response :=
  let* w := get_world in
  match LoadConfig w with
  | Err e => ret (errResponse ErrMCPError ("Failed to load config: " ++ e))
  | Ok config =>
      match cfg_Servers config !! serverName with
      | None => ret (notConfigured serverName)
      | Some serverConfig =>
          match unmarshalArguments argsJSON with
          | Err e => ret (errResponse ErrInvalidJSON ("Invalid JSON arguments: " ++ e))
          | Ok arguments =>
              let* client := newClient serverName serverConfig in
              let* (_, r) := CallTool env client toolName arguments in
              match r with
              | Err e => ret (errResponse ErrMCPError e)
              | Ok result =>
                  ret (okResponse
                         (JObj (<["server" := JStr serverName]>
                               (<["tool" := JStr toolName]>
                               (<["result" := Json.map_json result]> ∅)))))
              end
          end
      end
  end.

(** [doAuth] prints a response only when it fails. *)
Definition doAuth (serverName : string) : M (option Response) :=
  let* w := get_world in
  match LoadConfig w with
  | Err e => ret (Some (errResponse ErrMCPError ("Failed to load config: " ++ e)))
  | Ok config =>
      match cfg_Servers config !! serverName with
      | None =>
          ret (Some (errResponse ErrNotFound
                       ("Server '" ++ serverName ++ "' not configured")))
      | Some serverConfig =>
          let* err := DoOAuthFlow env serverName serverConfig in
          match err with
          | Some e => ret (Some (errResponse ErrAuthExpired e))
          | None => ret None
          end
      end
  end.

(** [daemonTools] and [daemonQuery] print the daemon's response. *)
Definition daemonTools (d : MCPDaemon) (serverName : string) : M (MCPDaemon * Response) :=
  let* (d', r) := DaemonSend env d (mkDaemonCommand "tools" serverName "" None) in
  match r with
  | Err e => ret (d', errResponse ErrDaemonError e)
  | Ok resp => ret (d', resp)
  end.

Definition daemonQuery (d : MCPDaemon) (serverName toolName argsJSON : string)
  : M (MCPDaemon * Response) :=
  match unmarshalArguments argsJSON with
  | Err e => ret (d, errResponse ErrInvalidJSON ("Invalid JSON arguments: " ++ e))
  | Ok arguments =>
      let* (d', r) :=
        DaemonSend env d (mkDaemonCommand "call" serverName toolName arguments) in
      match r with
      | Err e => ret (d', errResponse ErrDaemonError e)
      | Ok resp => ret (d', resp)
      end
  end.

End Commands.

End Main.

(** ** Notions used by the statements *)

(** The events a computation added to the trace. *)
Definition newEvents (w w' : World) : list Event :=
  drop (length (w_trace w)) (w_trace w').

(** The validity window of a token record in the words of the
    specification: [expiresAt == 0] or [now <= expiresAt - 60]. *)
Definition specWindow (now : Z) (tokenData : TokenData) : Prop :=
  (tok_ExpiresAt tokenData = 0 \/ now <= tok_ExpiresAt tokenData - 60)%Z.

(** The window [GetTokenForServer] implements: no positive expiry, or the
    clock not past the expiry less 60 seconds. *)
Definition validWindow (now : Z) (tokenData : TokenData) : Prop :=
  (tok_ExpiresAt tokenData <= 0 \/ now <= tok_ExpiresAt tokenData - 60)%Z.

(** A server without [oauth.token_url]. *)
Definition noTokenURL (serverConfig : ServerConfig) : Prop :=
  match sc_OAuth serverConfig with
  | None => True
  | Some oa => oa_TokenURL oa = ""
  end.

(** The daemon keeps a client only for a configured server, under that
    server's name, and a cache entry only for a server it holds a client
    of. *)
Definition daemon_wf (d : MCPDaemon) : Prop :=
  (forall name, is_Some (d_clients d !! name) ->
                is_Some (cfg_Servers (d_config d) !! name)) /\
  (forall name, is_Some (d_toolsCache d !! name) -> is_Some (d_clients d !! name)) /\
  (forall name client, d_clients d !! name = Some client -> c_serverName client = name).


(** [reload], [n] times in a row. *)
Fixpoint reloadTimes (n : nat) (d : MCPDaemon) : M MCPDaemon :=
  match n with
  | O => ret d
  | S n' =>
      let* (d', _) := reloadConfig d in
      reloadTimes n' d'
  end.

(** The request [Initialize] sends when it does send one. *)
Definition initializeRequest (env : Env) (c : MCPClient) (w : World) : HTTPRequest :=
  mkHTTPRequest "POST" (sc_URL (c_config c)) (requestHeaders env c)
    (BodyJSON (encodeMCPRequest "initialize" (env_uuid env (w_trace w)) initializeParams)).

(** The request [RefreshOAuthToken] sends to the token endpoint. *)
Definition refreshRequest (env : Env) (serverConfig : ServerConfig) (oa : OAuthConfig)
    (tokenData : TokenData) : HTTPRequest :=
  mkHTTPRequest "POST" (oa_TokenURL oa)
    (<[env_canonical_key env "Content-Type" := "application/x-www-form-urlencoded"]> ∅)
    (BodyRaw ("grant_type=refresh_token&refresh_token=" ++ tok_RefreshToken tokenData
              ++ "&client_id=" ++ getClientID serverConfig)).

(** The request [exchangeCode] sends to the token endpoint. *)
Definition exchangeRequest (env : Env) (discovery : OAuthDiscovery)
    (code clientID clientSecret codeVerifier : string) : HTTPRequest :=
  mkHTTPRequest "POST" (od_TokenURL discovery)
    (<[env_canonical_key env "Content-Type" := "application/x-www-form-urlencoded"]> ∅)
    (BodyForm (tokenExchangeForm code clientID codeVerifier clientSecret)).

(** The token map as [storeToken] finds it: empty when the file is missing,
    unreadable or holds [null]. *)
Definition storedTokens (w : World) : gmap string TokenData :=
  match LoadTokens w with
  | Ok m => or_empty m
  | Err _ => ∅
  end.

(** Clock, files and write permission agree. *)
Definition sameFiles (w w' : World) : Prop :=
  w_clock w' = w_clock w /\
  w_config_file w' = w_config_file w /\
  w_sessions_file w' = w_sessions_file w /\
  w_tokens_file w' = w_tokens_file w /\
  w_registrations_file w' = w_registrations_file w /\
  w_write_error w' = w_write_error w.

(** The [Close] events of a list of map entries. *)
Definition closeEvents (l : list (string * MCPClient)) : list Event :=
  (fun entry => EvClose (c_serverName entry.2)) <$> l.

(** A command as it arrives at the daemon: [omitempty] has dropped an
    empty [arguments] map. *)
Definition received (cmd : DaemonCommand) : DaemonCommand :=
  mkDaemonCommand (cmd_Action cmd) (cmd_Server cmd) (cmd_Tool cmd)
    (if Json.nonempty_map (cmd_Arguments cmd) then cmd_Arguments cmd else None).

(** The request [doDynamicClientRegistration] sends. *)
Definition registrationRequest (env : Env) (registrationURL redirect scopes : string)
  : HTTPRequest :=
  mkHTTPRequest "POST" registrationURL
    (<[env_canonical_key env "Content-Type" := "application/json"]> ∅)
    (BodyJSON (registrationBody redirect scopes)).

(** A server whose configuration names no OAuth client. *)
Definition noClientID (serverConfig : ServerConfig) : Prop :=
  match sc_OAuth serverConfig with
  | None => True
  | Some oa => oa_ClientID oa = ""
  end.

(** The event of [openBrowser]. *)
Definition isBrowser (ev : Event) : bool :=
  match ev with
  | EvBrowser _ => true
  | _ => false
  end.

(** A stretch of trace without a token request. *)
Definition quiet (evs : list Event) : Prop :=
  Forall (fun ev => isTokenExchange ev = false) evs.

(** ** Fixtures

    A small environment in the manner of the [httptest] servers of
    mcp_test.go: the upstream answers [initialize] with a session header
    and [tools/list] with a result that has no [tools] key; the JSON reader
    knows the three documents below. *)

Module Fixture.

Definition quote : string := String (ascii_of_nat 34) EmptyString.

Definition q (s : string) : string := quote ++ s ++ quote.

Definition docInitialized : string :=
  "{" ++ q "jsonrpc" ++ ":" ++ q "2.0" ++ "," ++ q "id" ++ ":" ++ q "1" ++ ","
      ++ q "result" ++ ":{" ++ q "protocolVersion" ++ ":" ++ q "2024-11-05" ++ "}}".

Definition treeInitialized : JSON :=
  JObj (<["jsonrpc" := JStr "2.0"]>
       (<["id" := JStr "1"]>
       (<["result" := JObj (<["protocolVersion" := JStr "2024-11-05"]> ∅)]> ∅))).

Definition docNoTools : string :=
  "{" ++ q "jsonrpc" ++ ":" ++ q "2.0" ++ "," ++ q "id" ++ ":" ++ q "1" ++ ","
      ++ q "result" ++ ":{" ++ q "items" ++ ":[]}}".

Definition treeNoTools : JSON :=
  JObj (<["jsonrpc" := JStr "2.0"]>
       (<["id" := JStr "1"]>
       (<["result" := JObj (<["items" := JArr []]> ∅)]> ∅))).

Definition docOk : string :=
  "{" ++ q "jsonrpc" ++ ":" ++ q "2.0" ++ "," ++ q "id" ++ ":" ++ q "1" ++ ","
      ++ q "result" ++ ":{" ++ q "ok" ++ ":true}}".

Definition treeOk : JSON :=
  JObj (<["jsonrpc" := JStr "2.0"]>
       (<["id" := JStr "1"]>
       (<["result" := JObj (<["ok" := JBool true]> ∅)]> ∅))).


Definition parse (text : string) : result JSON :=
  if String.eqb text docInitialized then Ok treeInitialized
  else if String.eqb text docNoTools then Ok treeNoTools
  else if String.eqb text docOk then Ok treeOk
  else Err "unexpected end of JSON input".

Definition jsonHeader : gmap string string :=
  <["Content-Type" := "application/json"]> ∅.

Definition http (trace : list Event) (req : HTTPRequest) : result HTTPResponse :=
  match req_Body req with
  | BodyJSON (JObj m) =>
      match m !! "method" with
      | Some (JStr method) =>
          if String.eqb method "initialize" then
            Ok (mkHTTPResponse 200 (<["Mcp-Session-Id" := "session-1"]> jsonHeader)
                  (Ok docInitialized))
          else if String.eqb method "tools/list" then
            Ok (mkHTTPResponse 200 jsonHeader (Ok docNoTools))
          else Err "connection refused"
      | _ => Err "connection refused"
      end
  | _ => Err "connection refused"
  end.

(** One callback reaches the listener, with a state the flow did not issue. *)
Definition callbacks (trace : list Event) : list (gmap string string) :=
  [ <["code" := "stolen-code"]> (<["state" := "forged-state"]> ∅) ].

Definition env : Env :=
  mkEnv http (fun _ => None) (fun _ => "request-1") parse parse (fun key => key)
    (fun _ _ => Ok "0123456789abcdef") (fun s => s) (fun s => s) (fun _ => "")
    (fun _ _ => Err "could not discover OAuth metadata") callbacks
    (fun _ _ => JArr []).

Definition remote : ServerConfig :=
  mkServerConfig "https://mcp.example.com" ∅ None "" false None.

Definition withOAuth : ServerConfig :=
  mkServerConfig "https://mcp.example.com" ∅
    (Some (mkOAuthConfig "https://auth.example.com/authorize"
             "https://auth.example.com/token" "" "client-123" "" [] "" ""))
    "" false None.

(** The clock of the fixtures: 2023-11-14T22:13:20Z, in nanoseconds. *)
Definition epoch0 : Z := (1700000000 * 1000000000)%Z.

Definition world0 : World :=
  mkWorld epoch0 FileAbsent FileAbsent FileAbsent FileAbsent None [].

Definition worldWithSession : World :=
  mkWorld epoch0 FileAbsent (FileData (Some (<["remote" := "cached-1"]> ∅)))
    FileAbsent FileAbsent None [].

(** A record whose [expires_at] is negative. *)
Definition oddToken : TokenData := mkTokenData "tok" "" 0 (-1) "".

Definition worldWithOddToken : World :=
  mkWorld epoch0 FileAbsent FileAbsent (FileData (Some (<["remote" := oddToken]> ∅)))
    FileAbsent None [].

(** A record that expired an hour ago and carries a refresh token. *)
Definition staleToken : TokenData :=
  mkTokenData "old" "refresh-me" 3600 (1700000000 - 3600) "Bearer".

Definition worldWithStaleToken : World :=
  mkWorld epoch0 FileAbsent FileAbsent (FileData (Some (<["remote" := staleToken]> ∅)))
    FileAbsent None [].

(** A record that is good for another hour. *)
Definition goodToken : TokenData :=
  mkTokenData "good" "" 3600 (1700000000 + 3600) "Bearer".

Definition worldWithGoodToken : World :=
  mkWorld epoch0 FileAbsent FileAbsent (FileData (Some (<["remote" := goodToken]> ∅)))
    FileAbsent None [].


Definition config1 : Config := mkConfig (<["remote" := remote]> ∅).

Definition daemon0 : MCPDaemon := mkMCPDaemon config1 ∅ ∅ [] true.

(** The daemon holding a client of [remote] and an expired cache entry. *)
Definition daemon1 : MCPDaemon :=
  mkMCPDaemon config1
    (<["remote" := NewMCPClient "remote" remote]> ∅)
    (<["remote" := mkCachedTools [mkTool "t1" "d" None] 0]> ∅)
    [] true.

Definition worldWithConfig1 : World :=
  mkWorld epoch0 (FileData config1) FileAbsent FileAbsent FileAbsent None [].

Definition toolsOf (server : string) : DaemonCommand :=
  mkDaemonCommand "tools" server "" None.

Definition client0 : MCPClient := NewMCPClient "remote" remote.

(** The states a [tools] command for [remote] goes through on [daemon0]. *)
Definition worldInitialized : World := (Initialize env client0 world0).2.

Definition clientInitialized : MCPClient := SetSessionID "session-1" client0.

Definition worldListed : World :=
  (Request env clientInitialized "tools/list" JNull worldInitialized).2.

Definition responseNoTools : MCPResponse :=
  mkMCPResponse "2.0" "1" (Some (<["items" := JArr []]> ∅)) None.

(** [daemon0] once it holds a client of [remote]. *)
Definition daemon0WithClient : MCPDaemon :=
  set_clients (<["remote" := client0]> ∅) daemon0.

(** [daemon1] after a failed [tools] command. *)
Definition daemon1AfterTools : MCPDaemon :=
  set_clients (<["remote" := clientInitialized]> (d_clients daemon1)) daemon1.

(** The flow for [withOAuth] when the browser has come back. *)
Definition flowContext : FlowContext :=
  mkFlowContext
    (mkOAuthDiscovery "https://auth.example.com/authorize"
       "https://auth.example.com/token" "" [] "https://mcp.example.com")
    "client-123" "" "0123456789abcdef" "0123456789abcdef".

Definition forgedCallback : OAuthCallbackServer :=
  mkOAuthCallbackServer "stolen-code" "forged-state" "".

Definition worldAuthorized : World :=
  (awaitAuthorization env "remote" withOAuth world0).2.


End Fixture.

(** ** A second set of fixtures

    An upstream that lists one tool and answers calls, a server that
    answers [null], an authorization server with token and registration
    endpoints, and a browser that comes back with the state it was sent. *)

Module Scenario.

Definition q : string -> string := Fixture.q.

Definition docTools : string :=
  "{" ++ q "jsonrpc" ++ ":" ++ q "2.0" ++ "," ++ q "id" ++ ":" ++ q "1" ++ ","
      ++ q "result" ++ ":{" ++ q "tools" ++ ":[{" ++ q "name" ++ ":" ++ q "echo" ++ ","
      ++ q "description" ++ ":" ++ q "Echo" ++ "," ++ q "inputSchema" ++ ":{"
      ++ q "type" ++ ":" ++ q "object" ++ "}}]}}".

Definition rawEcho : gmap string JSON :=
  <["name" := JStr "echo"]>
    (<["description" := JStr "Echo"]>
    (<["inputSchema" := JObj (<["type" := JStr "object"]> ∅)]> ∅)).

Definition resultTools : gmap string JSON :=
  <["tools" := JArr [JObj rawEcho]]> ∅.

Definition treeTools : JSON :=
  JObj (<["jsonrpc" := JStr "2.0"]>
       (<["id" := JStr "1"]>
       (<["result" := JObj resultTools]> ∅))).

Definition docRefused : string :=
  "{" ++ q "jsonrpc" ++ ":" ++ q "2.0" ++ "," ++ q "id" ++ ":" ++ q "1" ++ ","
      ++ q "error" ++ ":{" ++ q "code" ++ ":-32602," ++ q "message" ++ ":"
      ++ q "unknown tool" ++ "}}".

Definition treeRefused : JSON :=
  JObj (<["jsonrpc" := JStr "2.0"]>
       (<["id" := JStr "1"]>
       (<["error" := JObj (<["code" := JNum (-32602)]>
                          (<["message" := JStr "unknown tool"]> ∅))]> ∅))).

Definition docToken : string :=
  "{" ++ q "access_token" ++ ":" ++ q "fresh" ++ "," ++ q "expires_in" ++ ":3600}".

Definition treeToken : JSON :=
  JObj (<["access_token" := JStr "fresh"]> (<["expires_in" := JNum 3600]> ∅)).

Definition docRegistration : string :=
  "{" ++ q "client_id" ++ ":" ++ q "dyn-1" ++ "}".

Definition treeRegistration : JSON :=
  JObj (<["client_id" := JStr "dyn-1"]> ∅).

Definition docArguments : string :=
  "{" ++ q "text" ++ ":" ++ q "hi" ++ "}".

Definition parse (text : string) : result JSON :=
  if String.eqb text Fixture.docInitialized then Ok Fixture.treeInitialized
  else if String.eqb text docTools then Ok treeTools
  else if String.eqb text Fixture.docOk then Ok Fixture.treeOk
  else if String.eqb text docRefused then Ok treeRefused
  else if String.eqb text docToken then Ok treeToken
  else if String.eqb text docRegistration then Ok treeRegistration
  else if String.eqb text docArguments then Ok (JObj (<["text" := JStr "hi"]> ∅))
  else if String.eqb text "null" then Ok JNull
  else if String.eqb text "{}" then Ok (JObj ∅)
  else Err "unexpected end of JSON input".

Definition toolNamed (params : option JSON) : string :=
  match params with
  | Some (JObj p) => match p !! "name" with Some (JStr name) => name | _ => "" end
  | _ => ""
  end.

Definition http (trace : list Event) (req : HTTPRequest) : result HTTPResponse :=
  if String.eqb (req_URL req) "https://null.example.com" then
    Ok (mkHTTPResponse 200 Fixture.jsonHeader (Ok "null"))
  else
    match req_Body req with
    | BodyJSON (JObj m) =>
        match m !! "method" with
        | Some (JStr method) =>
            if String.eqb method "initialize" then
              Ok (mkHTTPResponse 200
                    (<["Mcp-Session-Id" := "session-1"]> Fixture.jsonHeader)
                    (Ok Fixture.docInitialized))
            else if String.eqb method "tools/list" then
              Ok (mkHTTPResponse 200 Fixture.jsonHeader (Ok docTools))
            else if String.eqb method "tools/call" then
              if String.eqb (toolNamed (m !! "params")) "echo"
              then Ok (mkHTTPResponse 200 Fixture.jsonHeader (Ok Fixture.docOk))
              else Ok (mkHTTPResponse 200 Fixture.jsonHeader (Ok docRefused))
            else Err "connection refused"
        | _ => Ok (mkHTTPResponse 201 Fixture.jsonHeader (Ok docRegistration))
        end
    | BodyRaw _ => Ok (mkHTTPResponse 200 Fixture.jsonHeader (Ok docToken))
    | BodyForm _ => Ok (mkHTTPResponse 200 Fixture.jsonHeader (Ok docToken))
    | _ => Err "connection refused"
    end.

(** The browser comes back once, with the state the flow issued. *)
Definition callbacks (trace : list Event) : list (gmap string string) :=
  [ <["code" := "code-1"]> (<["state" := "0123456789abcdef"]> ∅) ].

Definition env : Env :=
  mkEnv http (fun _ => None) (fun _ => "request-1") parse parse (fun key => key)
    (fun _ _ => Ok "0123456789abcdef") (fun s => s) (fun s => s) (fun _ => "")
    (fun _ _ => Err "could not discover OAuth metadata") callbacks
    (fun _ _ => JArr []).

(** A session-based server. *)
Definition live : ServerConfig :=
  mkServerConfig "https://mcp.example.com" ∅ None "" true None.

Definition nullServer : ServerConfig :=
  mkServerConfig "https://null.example.com" ∅ None "" false None.

(** OAuth endpoints with dynamic registration and no client. *)
Definition unregistered : ServerConfig :=
  mkServerConfig "https://mcp.example.com" ∅
    (Some (mkOAuthConfig "https://auth.example.com/authorize"
             "https://auth.example.com/token" "https://auth.example.com/register"
             "" "" [] "" ""))
    "" false None.

Definition unregisteredDiscovery : OAuthDiscovery :=
  mkOAuthDiscovery "https://auth.example.com/authorize" "https://auth.example.com/token"
    "https://auth.example.com/register" [] "https://mcp.example.com".

(** A client with a static [Authorization] header, a token and a session. *)
Definition authorizedClient : MCPClient :=
  mkMCPClient
    (mkServerConfig "https://mcp.example.com" (<["Authorization" := "Basic abc"]> ∅)
       None "" false None)
    "remote" "session-1" "tok-1" false false.

Definition callEcho : DaemonCommand :=
  mkDaemonCommand "call" "remote" "echo" (Some (<["text" := JStr "hi"]> ∅)).


Definition responseOk : MCPResponse :=
  mkMCPResponse "2.0" "1" (Some (<["ok" := JBool true]> ∅)) None.

Definition echo : Tool := mkTool "echo" "Echo" (Some (<["type" := JStr "object"]> ∅)).

Definition worldInitialized : World := (Initialize env Fixture.client0 Fixture.world0).2.

Definition worldListed : World :=
  (Request env Fixture.clientInitialized "tools/list" JNull worldInitialized).2.

Definition worldCalled : World :=
  (Request env Fixture.clientInitialized "tools/call"
     (toolsCallParams "echo" (Some (<["text" := JStr "hi"]> ∅))) worldInitialized).2.

(** [daemon0] after a [tools] command for [remote]. *)
Definition daemonListed : MCPDaemon :=
  (let d := set_clients (<["remote" := Fixture.clientInitialized]>
                           (d_clients Fixture.daemon0WithClient))
              Fixture.daemon0WithClient in
   set_toolsCache
     (<["remote" := mkCachedTools [echo] (w_clock worldListed + ToolsCacheTTL)%Z]>
        (d_toolsCache d)) d).

Definition tokenResponse : HTTPResponse :=
  mkHTTPResponse 200 Fixture.jsonHeader (Ok docToken).

Definition freshToken : TokenData := mkTokenData "fresh" "" 3600 0 "".

(** The state directory with a [registrations.json] that holds [null]. *)
Definition worldNullRegistrations : World :=
  mkWorld Fixture.epoch0 FileAbsent FileAbsent FileAbsent (FileData None) None [].

Definition registration : ClientRegistration := mkClientRegistration "dyn-1" "".

Definition worldRegistered : World :=
  (SaveRegistration "remote" registration Fixture.world0).2.

(** The callback of a browser that came back as expected. *)
Definition goodCallback : OAuthCallbackServer :=
  mkOAuthCallbackServer "code-1" "0123456789abcdef" "".

Definition worldAuthorized : World :=
  (awaitAuthorization env "remote" Fixture.withOAuth Fixture.world0).2.

End Scenario.

(** * Properties *)

(** Unfolds one layer of the computation monad. *)
Ltac run := unfold bind, ret, get_world, modify_world, panic; simpl.

(** ** SSE decoding *)

Section SSE_facts.

Variable unmarshal : string -> result MCPResponse.
Hypothesis unmarshal_empty : forall resp, unmarshal "" <> Ok resp.




End SSE_facts.

(** ** The MCP client *)

Section Client_facts.

Variable env : Env.

(** [Request] sends at most one request, and exactly one when the URL is
    accepted. *)
Lemma Request_trace c method params w :
  (Request env c method params w).2 =
  match env_bad_url env (sc_URL (c_config c)) with
  | Some _ => w
  | None =>
      emit (EvHTTP (mkHTTPRequest "POST" (sc_URL (c_config c)) (requestHeaders env c)
                      (BodyJSON (encodeMCPRequest method (env_uuid env (w_trace w)) params))))
        w
  end.
Proof.
  unfold Request. run.
  destruct (env_bad_url env (sc_URL (c_config c))); [done|].
  run. repeat case_match; done.
Qed.




Lemma Request_session_header c method params w resp sid w' :
  Request env c method params w = (Done (ReqDone resp sid), w') ->
  exists hresp,
    env_http env (w_trace w)
      (mkHTTPRequest "POST" (sc_URL (c_config c)) (requestHeaders env c)
         (BodyJSON (encodeMCPRequest method (env_uuid env (w_trace w)) params)))
    = Ok hresp /\
    sid = headerGet (hr_Header hresp) (env_canonical_key env "Mcp-Session-Id").
Proof.
  unfold Request. run.
  destruct (env_bad_url env (sc_URL (c_config c))); [done|].
  run. destruct (env_http env _ _) as [hresp|]; [|done].
  intros H. exists hresp. split; [done|].
  repeat case_match; by simplify_eq.
Qed.

(** [Request] hands a body announced as [text/event-stream] to
    [parseSSEResponse]. *)
Lemma Request_event_stream c method params w hresp body :
  env_bad_url env (sc_URL (c_config c)) = None ->
  env_http env (w_trace w)
    (mkHTTPRequest "POST" (sc_URL (c_config c)) (requestHeaders env c)
       (BodyJSON (encodeMCPRequest method (env_uuid env (w_trace w)) params)))
  = Ok hresp ->
  hr_Body hresp = Ok body ->
  Strings.Contains (headerGet (hr_Header hresp) (env_canonical_key env "Content-Type"))
    "text/event-stream" = true ->
  (Request env c method params w).1 =
  Done (let sid := headerGet (hr_Header hresp) (env_canonical_key env "Mcp-Session-Id") in
        match parseSSEResponse (unmarshalMCPResponse env) body with
        | Ok resp => ReqDone (Some resp) sid
        | Err e => ReqFail sid ("failed to parse response: " ++ e)
        end).
Proof.
  intros Hurl Hhttp Hbody Hsse. unfold Request. run.
  rewrite Hurl. run. rewrite Hhttp, Hbody, Hsse.
  by destruct (parseSSEResponse _ body).
Qed.

Lemma unmarshalMCPResponse_empty e resp :
  env_json_parse env "" = Err e -> unmarshalMCPResponse env "" <> Ok resp.
Proof. unfold unmarshalMCPResponse. by intros ->. Qed.

Lemma newEvents_emit w ev : newEvents w (emit ev w) = [ev].
Proof. unfold newEvents, emit; simpl. by rewrite drop_app_length. Qed.

Lemma newEvents_refl w : newEvents w w = [].
Proof. unfold newEvents. by rewrite drop_all. Qed.



End Client_facts.

(** ** Token lookup *)

Section Token_facts.

Variable env : Env.

Lemma tokenExpired_false now td :
  tokenExpired now td = false <-> validWindow now td.
Proof.
  unfold tokenExpired, validWindow. rewrite andb_false_iff, !Z.ltb_ge. done.
Qed.

Lemma RefreshOAuthToken_no_url serverName serverConfig tokenData w :
  noTokenURL serverConfig ->
  RefreshOAuthToken env serverName serverConfig tokenData w
  = (Done (Err "no token URL configured"), w).
Proof.
  unfold noTokenURL, RefreshOAuthToken.
  destruct (sc_OAuth serverConfig) as [oa|]; [|done].
  by intros ->.
Qed.

Lemma GetTokenForServer_error_nil serverName serverConfig w token err w' :
  GetTokenForServer env serverName serverConfig w = (Done (token, err), w') ->
  err = None.
Proof.
  unfold GetTokenForServer. run.
  repeat (case_match; run); intros; by simplify_eq.
Qed.

(** C2 (amended). With a record stored for the server, the lookup returns
    the record's access token, without touching anything, whenever
    [expiresAt <= 0] or [now <= expiresAt - 60]; outside that window it
    returns either the empty string or the non-empty access token that a
    refresh has just obtained. So for a record with a non-empty access
    token that no refresh hands back again, the record's access token is
    returned if and only if [expiresAt <= 0] or [now <= expiresAt - 60]. *)
Theorem GetTokenForServer_expiry_window serverName serverConfig w tokens tokenData :
  LoadTokens w = Ok tokens ->
  lookup_nilable tokens serverName = Some tokenData ->
  (validWindow (unixNow w) tokenData ->
   GetTokenForServer env serverName serverConfig w
   = (Done (tok_AccessToken tokenData, None), w)) /\
  (~ validWindow (unixNow w) tokenData ->
   (exists w', GetTokenForServer env serverName serverConfig w = (Done ("", None), w')) \/
   (tok_RefreshToken tokenData <> "" /\
    exists fresh w',
      fresh <> "" /\
      RefreshOAuthToken env serverName serverConfig tokenData w = (Done (Ok fresh), w') /\
      GetTokenForServer env serverName serverConfig w = (Done (fresh, None), w'))) /\
  (tok_AccessToken tokenData <> "" ->
   (forall fresh w',
       RefreshOAuthToken env serverName serverConfig tokenData w = (Done (Ok fresh), w') ->
       fresh <> tok_AccessToken tokenData) ->
   ((exists w', GetTokenForServer env serverName serverConfig w
                = (Done (tok_AccessToken tokenData, None), w')) <->
    validWindow (unixNow w) tokenData)).
Proof.
  intros Hload Hrec.
  assert (Hin : validWindow (unixNow w) tokenData ->
                GetTokenForServer env serverName serverConfig w
                = (Done (tok_AccessToken tokenData, None), w)).
  { intros Hwin. apply tokenExpired_false in Hwin.
    unfold GetTokenForServer. run. by rewrite Hload, Hrec, Hwin. }
  assert (Hout : ~ validWindow (unixNow w) tokenData ->
     (exists w', GetTokenForServer env serverName serverConfig w = (Done ("", None), w')) \/
     (tok_RefreshToken tokenData <> "" /\
      exists fresh w',
        fresh <> "" /\
        RefreshOAuthToken env serverName serverConfig tokenData w = (Done (Ok fresh), w') /\
        GetTokenForServer env serverName serverConfig w = (Done (fresh, None), w'))).
  { intros Hout. rewrite <- tokenExpired_false in Hout.
    apply not_false_is_true in Hout.
    unfold GetTokenForServer. run. rewrite Hload, Hrec, Hout.
    destruct (String.eqb (tok_RefreshToken tokenData) "") eqn:Hrt; simpl.
    - left. by eexists.
    - apply String.eqb_neq in Hrt.
      destruct (RefreshOAuthToken env serverName serverConfig tokenData w)
        as [[[fresh|e]|] w'] eqn:Href; simpl.
      + destruct (String.eqb fresh "") eqn:Hf; simpl.
        * left. by eexists.
        * apply String.eqb_neq in Hf. right. split; [done|].
          by exists fresh, w'.
      + left. by eexists.
      + exfalso. revert Href. unfold RefreshOAuthToken, storeToken, SaveTokens. run.
        repeat (case_match; run); done. }
  split_and!; [done..|].
  intros Hnonempty Hdiffers. split.
  - intros [w' Hret].
    destruct (tokenExpired (unixNow w) tokenData) eqn:Hexp;
      [|by apply tokenExpired_false].
    exfalso.
    assert (Hnot : ~ validWindow (unixNow w) tokenData).
    { intros Hwin. apply tokenExpired_false in Hwin. congruence. }
    destruct (Hout Hnot) as [[w'' Hempty] | (_ & fresh & w'' & _ & Href & Hfresh)].
    + rewrite Hempty in Hret. by simplify_eq.
    + rewrite Hfresh in Hret. simplify_eq. by eapply Hdiffers.
  - intros Hwin. exists w. by apply Hin.
Qed.

(** C10. Without [oauth.token_url] a refresh always fails, before any
    request; a record past its expiry window then yields the empty string
    and a nil error, refresh token or not, which is also what a server
    without any record yields; the error result is nil on every path. *)
Theorem GetTokenForServer_without_token_url serverName serverConfig :
  noTokenURL serverConfig ->
  (forall tokenData w,
      RefreshOAuthToken env serverName serverConfig tokenData w
      = (Done (Err "no token URL configured"), w)) /\
  (forall w tokens tokenData,
      LoadTokens w = Ok tokens ->
      lookup_nilable tokens serverName = Some tokenData ->
      (0 < tok_ExpiresAt tokenData)%Z ->
      (tok_ExpiresAt tokenData - 60 < unixNow w)%Z ->
      GetTokenForServer env serverName serverConfig w = (Done ("", None), w)) /\
  (forall w tokens,
      LoadTokens w = Ok tokens ->
      lookup_nilable tokens serverName = None ->
      GetTokenForServer env serverName serverConfig w = (Done ("", None), w)) /\
  (forall w token err w',
      GetTokenForServer env serverName serverConfig w = (Done (token, err), w') ->
      err = None).
Proof.
  intros Hno. split; [|split; [|split]].
  - intros. by apply RefreshOAuthToken_no_url.
  - intros w tokens tokenData Hload Hrec Hpos Hpast.
    unfold GetTokenForServer. run. rewrite Hload, Hrec.
    assert (Hout : tokenExpired (unixNow w) tokenData = true).
    { unfold tokenExpired. apply andb_true_iff. split; by apply Z.ltb_lt. }
    rewrite Hout.
    destruct (String.eqb (tok_RefreshToken tokenData) ""); simpl; [done|].
    by rewrite RefreshOAuthToken_no_url.
  - intros w tokens Hload Hrec.
    unfold GetTokenForServer. run. by rewrite Hload, Hrec.
  - intros. by eapply GetTokenForServer_error_nil.
Qed.

End Token_facts.

(** ** Hot reload *)

Section Reload_facts.

Lemma specChanged_same config name :
  is_Some (cfg_Servers config !! name) -> specChanged config config name = false.
Proof.
  intros [sc Hsc]. unfold specChanged. rewrite Hsc. simpl.
  by rewrite String.eqb_refl, Bool.eqb_reflx.
Qed.

Lemma specChanged_unchanged oldConfig newConfig name :
  is_Some (cfg_Servers oldConfig !! name) ->
  cfg_Servers newConfig !! name = cfg_Servers oldConfig !! name ->
  specChanged oldConfig newConfig name = false.
Proof.
  intros [sc Hsc] Heq. unfold specChanged. rewrite Heq, Hsc. simpl.
  by rewrite String.eqb_refl, Bool.eqb_reflx.
Qed.

(** The loop leaves the daemon and the world alone when no entry changed. *)
Lemma forEach_reloadClient_idle oldConfig l d w :
  (forall entry, entry ∈ l -> specChanged oldConfig (d_config d) entry.1 = false) ->
  forEach (reloadClient oldConfig) l d w = (Done d, w).
Proof.
  induction l as [|entry l IH]; intros Hl; [done|].
  simpl. unfold bind, reloadClient.
  rewrite (Hl entry) by apply list_elem_of_here. simpl.
  apply IH. intros e He. apply Hl. by apply list_elem_of_further.
Qed.

Lemma reload_lookup_step_changed {V} (P : string -> bool) (entry : string * MCPClient)
    (l : list (string * MCPClient)) (m : gmap string V) name :
  P entry.1 = true ->
  (if decide (name ∈ l.*1 /\ P name = true) then None else delete entry.1 m !! name) =
  (if decide (name ∈ (entry :: l).*1 /\ P name = true) then None else m !! name).
Proof.
  intros Hch. rewrite fmap_cons.
  destruct (decide (name = entry.1)) as [->|Hne].
  - rewrite lookup_delete_eq.
    destruct (decide (entry.1 ∈ l.*1 /\ _));
      destruct (decide (entry.1 ∈ entry.1 :: l.*1 /\ _)) as [|Hn]; try done;
      exfalso; apply Hn; (split; [apply list_elem_of_here|done]).
  - rewrite lookup_delete_ne by done.
    repeat case_decide; try done.
    + exfalso. destruct H as [Hin ?]. apply H0. split; [|done].
      by apply list_elem_of_further.
    + exfalso. destruct H0 as [Hin ?]. apply H. split; [|done].
      apply elem_of_cons in Hin as [?|?]; done.
Qed.

Lemma reload_lookup_step_same {V} (P : string -> bool) (entry : string * MCPClient)
    (l : list (string * MCPClient)) (m : gmap string V) name :
  P entry.1 = false ->
  (if decide (name ∈ l.*1 /\ P name = true) then None else m !! name) =
  (if decide (name ∈ (entry :: l).*1 /\ P name = true) then None else m !! name).
Proof.
  intros Hch. rewrite fmap_cons.
  repeat case_decide; try done.
  - exfalso. destruct H as [Hin ?]. apply H0. split; [|done].
    by apply list_elem_of_further.
  - exfalso. destruct H0 as [Hin ?]. apply H. split; [|done].
    apply elem_of_cons in Hin as [->|?]; [congruence|done].
Qed.

(** What the loop does in general, entry by entry. *)
Lemma forEach_reloadClient_spec oldConfig l d w :
  exists d' w',
    forEach (reloadClient oldConfig) l d w = (Done d', w') /\
    d_config d' = d_config d /\
    d_processes d' = d_processes d /\
    d_running d' = d_running d /\
    (forall name,
        d_clients d' !! name =
        if decide (name ∈ l.*1 /\ specChanged oldConfig (d_config d) name = true)
        then None else d_clients d !! name) /\
    (forall name,
        d_toolsCache d' !! name =
        if decide (name ∈ l.*1 /\ specChanged oldConfig (d_config d) name = true)
        then None else d_toolsCache d !! name) /\
    exists closed,
      w_trace w' = (w_trace w ++ (EvClose <$> closed))%list /\
      w_config_file w' = w_config_file w /\
      forall name, name ∈ closed ->
        exists entry, entry ∈ l /\ c_serverName entry.2 = name /\
                      specChanged oldConfig (d_config d) entry.1 = true.
Proof.
  revert d w. induction l as [|entry l IH]; intros d w.
  - exists d, w. simpl. unfold ret. split_and!; try done.
    exists []. simpl. rewrite app_nil_r. split_and!; try done.
    intros name H. by inversion H.
  - simpl. unfold bind at 1. unfold reloadClient at 1.
    destruct (specChanged oldConfig (d_config d) entry.1) eqn:Hch.
    + unfold Close. run.
      destruct (IH (set_toolsCache (delete entry.1 (d_toolsCache d))
                      (set_clients (delete entry.1 (d_clients d)) d))
                  (emit (EvClose (c_serverName entry.2)) w))
        as (d' & w' & Hrun & Hcfg & Hproc & Hrunning & Hcl & Hca & closed & Htr & Hfile & Hclosed).
      exists d', w'. simpl in *. rewrite Hrun. split_and!; try done.
      * intros name. rewrite Hcl. by apply reload_lookup_step_changed.
      * intros name. rewrite Hca. by apply reload_lookup_step_changed.
      * exists (c_serverName entry.2 :: closed). rewrite Htr. simpl.
        rewrite <- app_assoc. split_and!; try done.
        intros name Hin. apply elem_of_cons in Hin as [->|Hin].
        -- exists entry. split; [apply list_elem_of_here|done].
        -- destruct (Hclosed name Hin) as (e & He & Hn & Hc).
           exists e. split; [by apply list_elem_of_further|done].
    + run. destruct (IH d w)
        as (d' & w' & Hrun & Hcfg & Hproc & Hrunning & Hcl & Hca & closed & Htr & Hfile & Hclosed).
      exists d', w'. rewrite Hrun. split_and!; try done.
      * intros name. rewrite Hcl. by apply reload_lookup_step_same.
      * intros name. rewrite Hca. by apply reload_lookup_step_same.
      * exists closed. split_and!; try done.
        intros name Hin. destruct (Hclosed name Hin) as (e & He & Hn & Hc).
        exists e. split; [by apply list_elem_of_further|done].
Qed.

Lemma set_config_same d : set_config (d_config d) d = d.
Proof. by destruct d. Qed.

Lemma reloadConfig_same_config d w :
  daemon_wf d ->
  LoadConfig w = Ok (d_config d) ->
  reloadConfig d w = (Done (d, None), w).
Proof.
  intros (Hcl & _ & _) Hload. unfold reloadConfig. run. rewrite Hload.
  rewrite set_config_same, forEach_reloadClient_idle; [done|].
  intros [name client] Hin. apply elem_of_map_to_list in Hin.
  apply specChanged_same, Hcl. by eexists.
Qed.

(** C4. On a daemon state that satisfies the daemon's invariant, reloading
    an unchanged configuration any number of times changes neither the
    daemon (clients map and tools cache stay identical) nor the world (no
    client is closed); and under any new configuration a client whose
    server entry is unchanged stays in the map as it was, keeps its cache
    entry, and is not closed. *)
Theorem reload_unchanged_config (d : MCPDaemon) :
  daemon_wf d ->
  (forall w n,
      LoadConfig w = Ok (d_config d) ->
      reloadTimes n d w = (Done d, w)) /\
  (forall w config name client,
      LoadConfig w = Ok config ->
      d_clients d !! name = Some client ->
      cfg_Servers config !! name = cfg_Servers (d_config d) !! name ->
      exists d' w',
        reloadConfig d w = (Done (d', None), w') /\
        d_clients d' !! name = Some client /\
        d_toolsCache d' !! name = d_toolsCache d !! name /\
        EvClose name ∉ newEvents w w').
Proof.
  intros Hwf. split.
  - intros w n Hload. induction n as [|n IH]; [done|].
    simpl. unfold bind. by rewrite reloadConfig_same_config.
  - intros w config name client Hload Hclient Hsame.
    destruct Hwf as (Hcl & _ & Hnames).
    unfold reloadConfig. run. rewrite Hload.
    destruct (forEach_reloadClient_spec (d_config d) (map_to_list (d_clients d))
                (set_config config d) w)
      as (d' & w' & Hrun & _ & _ & _ & Hclients & Hcache & closed & Htr & _ & Hclosed).
    rewrite Hrun. exists d', w'. simpl in *.
    assert (Hkeep : specChanged (d_config d) config name = false).
    { apply specChanged_unchanged; [|done]. apply Hcl. by eexists. }
    split_and!; [done| | |].
    + rewrite Hclients. case_decide as H; [|done]. destruct H; congruence.
    + rewrite Hcache. case_decide as H; [|done]. destruct H; congruence.
    + unfold newEvents. rewrite Htr, drop_app_length.
      intros Hin. apply list_elem_of_fmap in Hin as (name' & [= <-] & Hin).
      destruct (Hclosed name Hin) as ([k c] & Hentry & Hname & Hch).
      apply elem_of_map_to_list in Hentry.
      pose proof (Hnames _ _ Hentry) as Hk. simpl in *. congruence.
Qed.

End Reload_facts.

(** ** Client acquisition, the tools cache and dispatch *)

Section Daemon_facts.

Variable env : Env.

Lemma GetTokenForServer_never_panics serverName serverConfig w :
  (GetTokenForServer env serverName serverConfig w).1 <> Panic.
Proof.
  unfold GetTokenForServer, RefreshOAuthToken, storeToken, SaveTokens. run.
  repeat (case_match; run); done.
Qed.




(** [getClient]: an error leaves everything alone and means the server is
    neither held nor configured; a success leaves the client in the map. *)
Lemma getClient_spec d serverName w d1 r w1 :
  getClient env d serverName w = (Done (d1, r), w1) ->
  d_config d1 = d_config d /\
  d_toolsCache d1 = d_toolsCache d /\
  d_processes d1 = d_processes d /\
  d_running d1 = d_running d /\
  match r with
  | Err e =>
      d1 = d /\ w1 = w /\
      e = "server '" ++ serverName ++ "' not configured" /\
      d_clients d !! serverName = None /\
      cfg_Servers (d_config d) !! serverName = None
  | Ok client =>
      d_clients d1 = <[serverName := client]> (d_clients d) /\
      (d_clients d !! serverName = Some client \/
       (d_clients d !! serverName = None /\
        is_Some (cfg_Servers (d_config d) !! serverName) /\
        c_serverName client = serverName))
  end.
Proof.
  unfold getClient.
  destruct (d_clients d !! serverName) as [client|] eqn:Hc.
  - run. intros [= <- <- <-]. split_and!; try done.
    + by rewrite insert_id.
    + by left.
  - destruct (cfg_Servers (d_config d) !! serverName) as [sc|] eqn:Hs.
    + run.
      destruct (GetTokenForServer env serverName sc w) as [[[token err]|] w0]; [|done].
      intros [= <- <- <-]. simpl. split_and!; try done.
      right. split_and!; [done|by eexists|].
      by destruct (String.eqb token "").
    + run. intros [= <- <- <-]. by split_and!.
Qed.

Lemma getClient_never_panics d serverName w :
  (getClient env d serverName w).1 <> Panic.
Proof.
  unfold getClient.
  destruct (d_clients d !! serverName); [done|].
  destruct (cfg_Servers (d_config d) !! serverName) as [sc|]; [|done].
  run. pose proof (GetTokenForServer_never_panics serverName sc w) as Hp.
  destruct (GetTokenForServer env serverName sc w) as [[[??]|] ?]; done.
Qed.

(** C9. When [getTools] returns an error, whether the client could not be
    acquired or [ListTools] failed, the tools cache is left exactly as it
    was: nothing is added, and an entry that was there, fresh or expired,
    is neither removed nor changed. *)
Theorem getTools_failure_keeps_cache d serverName w d' e w' :
  getTools env d serverName w = (Done (d', Err e), w') ->
  d_toolsCache d' = d_toolsCache d.
Proof.
  unfold getTools. run.
  destruct (freshTools d serverName w); [done|].
  destruct (getClient env d serverName w) as [[[d1 rc]|] w1] eqn:Hget; [|done].
  apply getClient_spec in Hget as (_ & Hcache & _).
  destruct rc as [client|e1]; run.
  - destruct (ListTools env client w1) as [[[client' rt]|] w2]; [|done].
    destruct rt; run; [done|]. intros [= <- _ _]. done.
  - intros [= <- _ _]. done.
Qed.


(** C6 (amended). When the [tools/list] response carries no JSON-RPC error
    and its result has no [tools] key, [ListTools] fails and the daemon
    answers [MCP_ERROR]; the message is [no tools in response] when the
    response has a result object, and [unexpected response format] when it
    has no result at all. *)
Theorem handleCommand_tools_key_missing d cmd w d1 client w1 client1 w2 resp sid w3 :
  cmd_Action cmd = "tools" ->
  cmd_Server cmd <> "" ->
  freshTools d (cmd_Server cmd) w = None ->
  getClient env d (cmd_Server cmd) w = (Done (d1, Ok client), w1) ->
  Initialize env client w1 = (Done (client1, None), w2) ->
  Request env client1 "tools/list" JNull w2 = (Done (ReqDone (Some resp) sid), w3) ->
  resp_Error resp = None ->
  (forall result, resp_Result resp = Some result -> result !! "tools" = None) ->
  let message :=
    match resp_Result resp with
    | Some _ => "no tools in response"
    | None => "unexpected response format"
    end in
  ListTools env client w1 = (Done (client1, Err message), w3) /\
  handleCommand env d cmd w
  = (Done (set_clients (<[cmd_Server cmd := client1]> (d_clients d1)) d1,
           mkResponse false JNull (Some (mkErrorResponse "MCP_ERROR" message))),
     w3).
Proof.
  intros Hact Hserver Hfresh Hget Hinit Hreq Herr Hkey message.
  assert (Hlist : ListTools env client w1 = (Done (client1, Err message), w3)).
  { unfold ListTools. unfold bind at 1. rewrite Hinit. simpl.
    unfold bind at 1. rewrite Hreq, Herr. subst message.
    destruct (resp_Result resp) as [result|]; [|done].
    by rewrite (Hkey result eq_refl). }
  split; [done|].
  apply String.eqb_neq in Hserver.
  unfold handleCommand. rewrite Hact. simpl. rewrite Hserver.
  unfold getTools. run. by rewrite Hfresh, Hget, Hlist.
Qed.











End Daemon_facts.

(** ** The authorization-code flow *)

Section OAuth_facts.

Variable env : Env.

Lemma clientCredentials_trace serverName serverConfig discovery scope w out w' :
  clientCredentials env serverName serverConfig discovery scope w = (out, w') ->
  exists evs, w_trace w' = (w_trace w ++ evs)%list /\ quiet evs.
Proof.
  unfold clientCredentials, doDynamicClientRegistration, SaveRegistration. run.
  repeat (case_match; run); intros; simplify_eq; simpl;
    first [ by (exists []; rewrite app_nil_r; split; [done|constructor])
          | by (eexists [_]; split; [done|repeat constructor]) ].
Qed.

(** What [awaitAuthorization] hands over: the state it generated from 16
    random bytes, and the callback record left by the queries that reached
    the listener; up to there no token request has been sent. *)
Lemma awaitAuthorization_Ok serverName serverConfig w ctx callbackServer w1 :
  awaitAuthorization env serverName serverConfig w = (Done (Ok (ctx, callbackServer)), w1) ->
  (exists evs, w_trace w1 = (w_trace w ++ evs)%list /\ quiet evs) /\
  (exists w0 b,
      env_rand env (w_trace w0) 16 = Ok b /\
      fc_state ctx = env_base64url env b) /\
  callbackServer
  = fold_left handleCallback (env_callbacks env (w_trace w1)) newOAuthCallbackServer.
Proof.
  unfold awaitAuthorization. unfold bind at 1.
  assert (Hdisc : (discover env serverName serverConfig w).2 = w).
  { unfold discover. repeat (case_match; run); done. }
  destruct (discover env serverName serverConfig w) as [[found|] w0]; simpl in Hdisc;
    subst w0; [|done].
  destruct found as [discovery|e]; [|done].
  case_match; [done|].
  unfold bind at 1.
  destruct (clientCredentials env serverName serverConfig discovery
              (chooseScope serverConfig discovery) w)
    as [[[clientID clientSecret]|] w2] eqn:Hcred; [|done].
  apply clientCredentials_trace in Hcred as (evs & Htr & Hquiet).
  case_match; [done|].
  unfold generatePKCE, generateState, waitForCallback. run.
  destruct (env_rand env (w_trace w2) 32) as [b32|]; [|done]. simpl.
  destruct (env_rand env (w_trace w2) 16) as [b16|] eqn:Hrand; [|done]. simpl.
  intros [= <- <- <-]. simpl. split_and!.
  - exists (evs ++ [EvBrowser
                     (od_AuthURL discovery ++ "?" ++
                      env_encode_query env
                        (authParams clientID (env_base64url env b16)
                           (env_base64url env (env_sha256 env (env_base64url env b32)))
                           (od_Resource discovery) (chooseScope serverConfig discovery)))])%list.
    rewrite Htr, app_assoc. split; [done|].
    apply Forall_app. split; [done|]. by repeat constructor.
  - by exists w2, b16.
  - done.
Qed.

(** C7. When the state recorded from the loopback callback differs from the
    state the flow generated, the flow fails, and its whole trace holds no
    token request: the code is never exchanged. *)
Theorem DoOAuthFlow_state_mismatch serverName serverConfig w ctx callbackServer w1 :
  awaitAuthorization env serverName serverConfig w = (Done (Ok (ctx, callbackServer)), w1) ->
  cb_state callbackServer <> fc_state ctx ->
  (exists e, DoOAuthFlow env serverName serverConfig w = (Done (Some e), w1)) /\
  (exists evs, w_trace w1 = (w_trace w ++ evs)%list /\
               Forall (fun ev => isTokenExchange ev = false) evs).
Proof.
  intros Hawait Hstate. split.
  - unfold DoOAuthFlow. unfold bind. rewrite Hawait. unfold completeFlow.
    apply String.eqb_neq in Hstate. rewrite Hstate. simpl.
    repeat case_match; by eexists.
  - by apply awaitAuthorization_Ok in Hawait as [? _].
Qed.

Lemma quiet_nil w : exists evs, w_trace w = (w_trace w ++ evs)%list /\ quiet evs.
Proof. exists []. rewrite app_nil_r. split; [done|constructor]. Qed.

Lemma awaitAuthorization_quiet serverName serverConfig w out w1 :
  awaitAuthorization env serverName serverConfig w = (out, w1) ->
  exists evs, w_trace w1 = (w_trace w ++ evs)%list /\ quiet evs.
Proof.
  unfold awaitAuthorization. unfold bind at 1.
  assert (Hdisc : (discover env serverName serverConfig w).2 = w).
  { unfold discover. repeat (case_match; run); done. }
  destruct (discover env serverName serverConfig w) as [[found|] w0]; simpl in Hdisc;
    subst w0; [|intros [= <- <-]; apply quiet_nil].
  destruct found as [discovery|e]; [|intros [= <- <-]; apply quiet_nil].
  case_match; [intros [= <- <-]; apply quiet_nil|].
  unfold bind at 1.
  destruct (clientCredentials env serverName serverConfig discovery
              (chooseScope serverConfig discovery) w)
    as [[[clientID clientSecret]|] w2] eqn:Hcred;
    apply clientCredentials_trace in Hcred as (evs & Htr & Hquiet);
    [|intros [= <- <-]; by exists evs].
  case_match; [intros [= <- <-]; by exists evs|].
  unfold generatePKCE, generateState, waitForCallback. run.
  destruct (env_rand env (w_trace w2) 32) as [b32|]; [|intros [= <- <-]; by exists evs].
  simpl.
  destruct (env_rand env (w_trace w2) 16) as [b16|]; [|intros [= <- <-]; by exists evs].
  simpl. intros [= <- <-]. simpl.
  eexists (evs ++ [_])%list. rewrite Htr, app_assoc. split; [done|].
  apply Forall_app. split; [done|]. by repeat constructor.
Qed.

(** The converse reading: a token request in the trace of a flow means the
    callback carried the state the flow had generated. *)
Lemma DoOAuthFlow_exchange_needs_state serverName serverConfig w out w' :
  DoOAuthFlow env serverName serverConfig w = (out, w') ->
  Exists (fun ev => isTokenExchange ev = true) (newEvents w w') ->
  exists ctx callbackServer w1,
    awaitAuthorization env serverName serverConfig w
    = (Done (Ok (ctx, callbackServer)), w1) /\
    cb_state callbackServer = fc_state ctx.
Proof.
  unfold DoOAuthFlow. unfold bind.
  destruct (awaitAuthorization env serverName serverConfig w) as [r w1] eqn:Hawait.
  pose proof (awaitAuthorization_quiet _ _ _ _ _ Hawait) as (evs & Htr & Hquiet).
  assert (Hstop : w' = w1 ->
                  ~ Exists (fun ev => isTokenExchange ev = true) (newEvents w w')).
  { intros ->. unfold newEvents. rewrite Htr, drop_app_length.
    intros Hex. apply Exists_exists in Hex as (ev & Hin & Hev).
    unfold quiet in Hquiet. rewrite Forall_forall in Hquiet.
    rewrite (Hquiet ev Hin) in Hev. discriminate. }
  destruct r as [[[ctx cb]|e]|]; try (intros [= _ <-] Hex; by destruct Hstop).
  unfold completeFlow.
  destruct (String.eqb (cb_state cb) (fc_state ctx)) eqn:Hst.
  - apply String.eqb_eq in Hst. intros _ _. by exists ctx, cb, w1.
  - simpl. repeat case_match; intros [= _ <-] Hex; by destruct Hstop.
Qed.

End OAuth_facts.

(** ** Wire records *)

Section Wire_facts.

Ltac json_fields :=
  unfold Json.decode_struct, Json.field_string, Json.field_int, Json.field_bool,
    Json.field_map, Json.field_any, Json.field_ptr, Json.put, Json.put_omitempty,
    Json.nonempty_string, Json.nonzero, Json.nonempty_map, Json.map_json, Json.non_nil.

Ltac split_string s :=
  let He := fresh "He" in
  destruct (String.eqb s "") eqn:He;
  [apply String.eqb_eq in He; subst s|]; cbn [negb].



Lemma roundtrip_ErrorResponse e : decodeErrorResponse (encodeErrorResponse e) = Some e.
Proof.
  destruct e as [c m]. unfold decodeErrorResponse, encodeErrorResponse. json_fields.
  cbn [err_Code err_Message]. by simplify_map_eq.
Qed.

Lemma roundtrip_Response r : decodeResponse (encodeResponse r) = Some r.
Proof.
  destruct r as [ok data err].
  unfold decodeResponse, encodeResponse.
  unfold Json.decode_struct, Json.field_bool, Json.field_any, Json.field_ptr,
    Json.put, Json.put_omitempty, Json.non_nil.
  cbn [r_OK r_Data r_Error].
  destruct err as [e|]; simpl.
  - pose proof (roundtrip_ErrorResponse e) as He.
    assert (exists m, encodeErrorResponse e = JObj m) as [m Hm] by (by eexists).
    rewrite Hm in *.
    destruct data; simplify_map_eq; by rewrite ?He.
  - destruct data; by simplify_map_eq.
Qed.


Lemma decode_encode_DaemonCommand c :
  decodeDaemonCommand (encodeDaemonCommand c) =
  Some (mkDaemonCommand (cmd_Action c) (cmd_Server c) (cmd_Tool c)
          (if Json.nonempty_map (cmd_Arguments c) then cmd_Arguments c else None)).
Proof.
  destruct c as [a s t p].
  unfold decodeDaemonCommand, encodeDaemonCommand. json_fields.
  cbn [cmd_Action cmd_Server cmd_Tool cmd_Arguments].
  split_string s; split_string t; destruct p as [p|];
    repeat case_bool_decide; simplify_eq; cbn [negb]; by simplify_map_eq.
Qed.


End Wire_facts.

(** * Instances on the fixtures *)

Section Fixture_facts.


Lemma fixture_daemon1_wf : daemon_wf Fixture.daemon1.
Proof.
  unfold daemon_wf, Fixture.daemon1, Fixture.config1. simpl. split_and!.
  - intros name [c Hc]. destruct (decide (name = "remote")) as [->|Hne]; [by eexists|].
    by rewrite lookup_insert_ne, lookup_empty in Hc.
  - intros name [c Hc]. destruct (decide (name = "remote")) as [->|Hne]; [by eexists|].
    by rewrite lookup_insert_ne, lookup_empty in Hc.
  - intros name c Hc. destruct (decide (name = "remote")) as [->|Hne].
    + rewrite lookup_insert_eq in Hc. by simplify_eq.
    + by rewrite lookup_insert_ne, lookup_empty in Hc.
Qed.


End Fixture_facts.


(** A record with a negative [expires_at]: the token is returned although
    neither [expiresAt == 0] nor [now <= expiresAt - 60] holds. *)
Lemma GetTokenForServer_negative_expiry :
  LoadTokens Fixture.worldWithOddToken = Ok (Some (<["remote" := Fixture.oddToken]> ∅)) /\
  GetTokenForServer Fixture.env "remote" Fixture.remote Fixture.worldWithOddToken
  = (Done (tok_AccessToken Fixture.oddToken, None), Fixture.worldWithOddToken) /\
  tok_AccessToken Fixture.oddToken <> "" /\
  ~ specWindow (unixNow Fixture.worldWithOddToken) Fixture.oddToken.
Proof.
  split_and!; [done|vm_compute; reflexivity|done|].
  intros [H|H]; [discriminate H|]. vm_compute in H. by apply H.
Qed.

Lemma GetTokenForServer_expiry_window_witness :
  GetTokenForServer Fixture.env "remote" Fixture.remote Fixture.worldWithGoodToken
  = (Done ("good", None), Fixture.worldWithGoodToken).
Proof.
  apply (proj1 (GetTokenForServer_expiry_window Fixture.env "remote" Fixture.remote
                  Fixture.worldWithGoodToken
                  (Some (<["remote" := Fixture.goodToken]> ∅)) Fixture.goodToken
                  eq_refl eq_refl)).
  right. vm_compute. discriminate.
Defined.

Lemma GetTokenForServer_without_token_url_witness :
  GetTokenForServer Fixture.env "remote" Fixture.remote Fixture.worldWithStaleToken
  = (Done ("", None), Fixture.worldWithStaleToken).
Proof.
  apply (proj1 (proj2 (GetTokenForServer_without_token_url Fixture.env "remote"
                         Fixture.remote I))
           Fixture.worldWithStaleToken
           (Some (<["remote" := Fixture.staleToken]> ∅)) Fixture.staleToken
           eq_refl eq_refl);
    vm_compute; reflexivity.
Defined.



Lemma reload_unchanged_config_witness :
  reloadTimes 3 Fixture.daemon1 Fixture.worldWithConfig1
  = (Done Fixture.daemon1, Fixture.worldWithConfig1).
Proof.
  apply (proj1 (reload_unchanged_config Fixture.daemon1 fixture_daemon1_wf)
           Fixture.worldWithConfig1 3).
  reflexivity.
Defined.


(** A [tools/list] result without the [tools] key: the daemon's message is
    [no tools in response], not [unexpected response format]. *)
Lemma handleCommand_tools_key_missing_message :
  resp_Result Fixture.responseNoTools ≫= (.!! "tools") = None /\
  Request Fixture.env Fixture.clientInitialized "tools/list" JNull Fixture.worldInitialized
  = (Done (ReqDone (Some Fixture.responseNoTools) ""), Fixture.worldListed) /\
  exists d' r w',
    handleCommand Fixture.env Fixture.daemon0 (Fixture.toolsOf "remote") Fixture.world0
    = (Done (d', r), w') /\
    err_Code <$> r_Error r = Some "MCP_ERROR" /\
    err_Message <$> r_Error r = Some "no tools in response" /\
    err_Message <$> r_Error r <> Some "unexpected response format".
Proof.
  split; [done|]. split; [vm_compute; reflexivity|].
  eexists _, _, _. split; [vm_compute; reflexivity|]. by split_and!.
Qed.

Lemma handleCommand_tools_key_missing_witness :
  handleCommand Fixture.env Fixture.daemon0 (Fixture.toolsOf "remote") Fixture.world0
  = (Done (set_clients (<["remote" := Fixture.clientInitialized]>
                          (d_clients Fixture.daemon0WithClient))
             Fixture.daemon0WithClient,
           mkResponse false JNull
             (Some (mkErrorResponse "MCP_ERROR" "no tools in response"))),
     Fixture.worldListed).
Proof.
  refine (proj2 (handleCommand_tools_key_missing Fixture.env Fixture.daemon0
                   (Fixture.toolsOf "remote") Fixture.world0
                   Fixture.daemon0WithClient
                   Fixture.client0 Fixture.world0
                   Fixture.clientInitialized Fixture.worldInitialized
                   Fixture.responseNoTools "" Fixture.worldListed
                   eq_refl _ _ _ _ _ eq_refl _)).
  - discriminate.
  - vm_compute; reflexivity.
  - vm_compute; reflexivity.
  - vm_compute; reflexivity.
  - vm_compute; reflexivity.
  - intros result [= <-]. reflexivity.
Defined.

Lemma DoOAuthFlow_state_mismatch_witness :
  DoOAuthFlow Fixture.env "remote" Fixture.withOAuth Fixture.world0
  = (Done (Some "state mismatch - possible CSRF attack"), Fixture.worldAuthorized) /\
  Forall (fun ev => isTokenExchange ev = false) (w_trace Fixture.worldAuthorized).
Proof.
  assert (Hawait : awaitAuthorization Fixture.env "remote" Fixture.withOAuth Fixture.world0
                   = (Done (Ok (Fixture.flowContext, Fixture.forgedCallback)),
                      Fixture.worldAuthorized))
    by (vm_compute; reflexivity).
  assert (Hstate : cb_state Fixture.forgedCallback <> fc_state Fixture.flowContext)
    by discriminate.
  destruct (DoOAuthFlow_state_mismatch Fixture.env "remote" Fixture.withOAuth
              Fixture.world0 _ _ _ Hawait Hstate) as [[e He] [evs [Htrace Hquiet]]].
  split.
  - rewrite He. f_equal. revert He. vm_compute. congruence.
  - rewrite Htrace. exact Hquiet.
Defined.



Lemma getTools_failure_keeps_cache_witness :
  getTools Fixture.env Fixture.daemon1 "remote" Fixture.world0
  = (Done (Fixture.daemon1AfterTools, Err "no tools in response"), Fixture.worldListed) /\
  d_toolsCache Fixture.daemon1AfterTools = d_toolsCache Fixture.daemon1.
Proof.
  assert (Hrun : getTools Fixture.env Fixture.daemon1 "remote" Fixture.world0
                 = (Done (Fixture.daemon1AfterTools, Err "no tools in response"),
                    Fixture.worldListed))
    by (vm_compute; reflexivity).
  split; [exact Hrun|].
  exact (getTools_failure_keeps_cache Fixture.env _ _ _ _ _ _ Hrun).
Defined.

(** * Further properties of the code *)

(** ** Requests and sessions (mcp.go) *)

Section Request_more.

Variable env : Env.


(** X2. The headers of a request: a non-empty OAuth token always ends up as
    [Authorization: Bearer <token>], whatever the static headers say, and a
    non-empty session ID always ends up as [Mcp-Session-Id]. *)
Theorem requestHeaders_token_and_session c :
  env_canonical_key env "Authorization" <> env_canonical_key env "Mcp-Session-Id" ->
  (c_oauthToken c <> "" ->
   requestHeaders env c !! env_canonical_key env "Authorization"
   = Some ("Bearer " ++ c_oauthToken c)) /\
  (c_sessionID c <> "" ->
   requestHeaders env c !! env_canonical_key env "Mcp-Session-Id"
   = Some (c_sessionID c)).
Proof.
  intros Hkeys. unfold requestHeaders. split.
  - intros Htok. apply String.eqb_neq in Htok. rewrite Htok. simpl.
    destruct (String.eqb (c_sessionID c) ""); simpl.
    + by rewrite lookup_insert_eq.
    + rewrite lookup_insert_ne by done. by rewrite lookup_insert_eq.
  - intros Hsid. apply String.eqb_neq in Hsid. rewrite Hsid. simpl.
    by rewrite lookup_insert_eq.
Qed.

Lemma newEvents_of_trace w w' evs :
  w_trace w' = (w_trace w ++ evs)%list -> newEvents w w' = evs.
Proof. unfold newEvents. intros ->. by rewrite drop_app_length. Qed.

Lemma Initialize_config c w c1 err w1 :
  Initialize env c w = (Done (c1, err), w1) -> c_config c1 = c_config c.
Proof.
  unfold Initialize, cachedSession, SaveSessions. run.
  repeat (case_match; run); intros; by simplify_eq.
Qed.

Lemma Initialize_without_cache c w :
  sc_SessionBased (c_config c) = true \/
  (forall sessions, LoadSessions w = Ok sessions ->
                    lookup_nilable sessions (c_serverName c) = None) ->
  cachedSession c w = (Done None, w).
Proof.
  unfold cachedSession. intros [-> | Hnone]; [done|].
  destruct (sc_SessionBased (c_config c)); [done|]. run.
  destruct (LoadSessions w) as [sessions|] eqn:Hload; [|done].
  by rewrite (Hnone _ eq_refl).
Qed.

Lemma Initialize_session_based_world c w :
  sc_SessionBased (c_config c) = true ->
  (Initialize env c w).2 = (Request env c "initialize" initializeParams w).2.
Proof.
  intros Hsb. unfold Initialize. unfold bind at 1.
  rewrite Initialize_without_cache by by left.
  unfold bind at 1.
  destruct (Request env c "initialize" initializeParams w) as [[r|] w1]; [|done].
  destruct r as [sid err|[resp|] sid]; run; try done.
  destruct (resp_Error resp); [done|].
  destruct (String.eqb sid ""); simpl; [done|]. by rewrite Hsb.
Qed.

(** X3. A response that is not an event stream and whose body is the JSON
    document [null] decodes to a nil response without error; [Initialize]
    then dereferences it: with no cached session to adopt, [Initialize],
    [ListTools] and [CallTool] all panic. *)
Theorem Initialize_null_body_panics c w hresp body :
  sc_SessionBased (c_config c) = true \/
  (forall sessions, LoadSessions w = Ok sessions ->
                    lookup_nilable sessions (c_serverName c) = None) ->
  env_bad_url env (sc_URL (c_config c)) = None ->
  env_http env (w_trace w) (initializeRequest env c w) = Ok hresp ->
  hr_Body hresp = Ok body ->
  Strings.Contains (headerGet (hr_Header hresp) (env_canonical_key env "Content-Type"))
    "text/event-stream" = false ->
  env_json_parse env body = Ok JNull ->
  (Initialize env c w).1 = Panic /\
  (ListTools env c w).1 = Panic /\
  (forall toolName arguments, (CallTool env c toolName arguments w).1 = Panic).
Proof.
  intros Hmiss Hurl Hhttp Hbody Hct Hnull.
  assert (Hreq : exists sid w1,
             Request env c "initialize" initializeParams w = (Done (ReqDone None sid), w1)).
  { unfold Request, initializeRequest in *. run. rewrite Hurl. run.
    rewrite Hhttp, Hbody, Hct. unfold unmarshalMCPResponsePtr. rewrite Hnull.
    by eexists _, _. }
  destruct Hreq as (sid & w1 & Hreq).
  assert (Hinit : Initialize env c w = (Panic, w1)).
  { unfold Initialize. unfold bind at 1. rewrite (Initialize_without_cache _ _ Hmiss).
    unfold bind at 1. by rewrite Hreq. }
  split_and!.
  - by rewrite Hinit.
  - unfold ListTools. unfold bind at 1. by rewrite Hinit.
  - intros toolName arguments. unfold CallTool. unfold bind at 1. by rewrite Hinit.
Qed.

(** X4. For a session-based server every [ListTools] starts over with an
    [initialize] request, whatever session the client already holds: the
    first request it sends is the [initialize] call, followed by at most
    one more request. *)
Theorem ListTools_session_based_reinitializes c w :
  sc_SessionBased (c_config c) = true ->
  env_bad_url env (sc_URL (c_config c)) = None ->
  exists rest,
    newEvents w (ListTools env c w).2 = EvHTTP (initializeRequest env c w) :: rest /\
    length rest <= 1.
Proof.
  intros Hsb Hurl.
  pose proof (Initialize_session_based_world c w Hsb) as Hw.
  rewrite Request_trace, Hurl in Hw. fold (initializeRequest env c w) in Hw.
  unfold ListTools. unfold bind at 1.
  destruct (Initialize env c w) as [[[c1 err]|] w1] eqn:Hinit; simpl in Hw; subst w1.
  - destruct err as [e|].
    + exists []. split; [apply newEvents_emit|simpl; lia].
    + apply Initialize_config in Hinit.
      unfold bind at 1.
      pose proof (Request_trace env c1 "tools/list" JNull
                    (emit (EvHTTP (initializeRequest env c w)) w)) as Htr.
      rewrite Hinit, Hurl in Htr.
      destruct (Request env c1 "tools/list" JNull _) as [[r|] w2]; simpl in Htr; subst w2.
      * eexists [_]. split; [|simpl; lia].
        apply newEvents_of_trace.
        destruct r as [sid e|[resp|] sid]; run;
          repeat case_match; simpl; by rewrite <- app_assoc.
      * eexists [_]. split; [|simpl; lia].
        apply newEvents_of_trace. simpl. by rewrite <- app_assoc.
  - exists []. split; [apply newEvents_emit|simpl; lia].
Qed.

(** X5. For a server that is not session-based and has a non-empty session
    ID in the sessions store, [ListTools] sends a single request, the
    [tools/list] call, and that request carries the stored ID in its
    [Mcp-Session-Id] header. *)
Theorem ListTools_sends_cached_session c w sessions sid :
  sc_SessionBased (c_config c) = false ->
  LoadSessions w = Ok sessions ->
  lookup_nilable sessions (c_serverName c) = Some sid ->
  sid <> "" ->
  env_bad_url env (sc_URL (c_config c)) = None ->
  exists req,
    newEvents w (ListTools env c w).2 = [EvHTTP req] /\
    req_URL req = sc_URL (c_config c) /\
    req_Body req = BodyJSON (encodeMCPRequest "tools/list" (env_uuid env (w_trace w)) JNull) /\
    req_Header req !! env_canonical_key env "Mcp-Session-Id" = Some sid.
Proof.
  intros Hsb Hload Hsid Hne Hurl.
  assert (Hinit : Initialize env c w = (Done (SetSessionID sid c, None), w)).
  { unfold Initialize, cachedSession. rewrite Hsb. run. by rewrite Hload, Hsid. }
  pose proof (Request_trace env (SetSessionID sid c) "tools/list" JNull w) as Htr.
  simpl in Htr. rewrite Hurl in Htr.
  eexists. split_and!.
  - unfold ListTools. unfold bind at 1. rewrite Hinit. simpl. unfold bind at 1.
    destruct (Request env (SetSessionID sid c) "tools/list" JNull w) as [[r|] w2];
      simpl in Htr; subst w2; [|apply newEvents_emit].
    destruct r as [s e|[resp|] s]; run; repeat case_match; apply newEvents_emit.
  - done.
  - done.
  - simpl. unfold requestHeaders. simpl.
    apply String.eqb_neq in Hne. rewrite Hne. simpl. by rewrite lookup_insert_eq.
Qed.



End Request_more.

(** ** Tool calls through the daemon (mcp.go, daemon.go) *)

Section Call_more.

Variable env : Env.

(** X7. A [call] command that reaches the server: a JSON-RPC error in the
    response is answered with [MCP_ERROR] and the message
    [tool call failed: <server message>]; without one the daemon answers
    [ok] with the server name, the tool name and the result object as it
    came. *)
Theorem handleCommand_call_outcome d cmd w d1 client w1 client1 w2 resp sid w3 :
  cmd_Action cmd = "call" ->
  cmd_Server cmd <> "" ->
  cmd_Tool cmd <> "" ->
  getClient env d (cmd_Server cmd) w = (Done (d1, Ok client), w1) ->
  Initialize env client w1 = (Done (client1, None), w2) ->
  Request env client1 "tools/call" (toolsCallParams (cmd_Tool cmd) (cmd_Arguments cmd)) w2
  = (Done (ReqDone (Some resp) sid), w3) ->
  handleCommand env d cmd w
  = (Done (set_clients (<[cmd_Server cmd := client1]> (d_clients d1)) d1,
           match resp_Error resp with
           | Some rpcError =>
               mkResponse false JNull
                 (Some (mkErrorResponse "MCP_ERROR"
                          ("tool call failed: " ++ rpc_Message rpcError)))
           | None =>
               mkResponse true
                 (JObj (<["server" := JStr (cmd_Server cmd)]>
                       (<["tool" := JStr (cmd_Tool cmd)]>
                       (<["result" := Json.map_json (resp_Result resp)]> ∅))))
                 None
           end),
     w3).
Proof.
  intros Hact Hserver Htool Hget Hinit Hreq.
  apply String.eqb_neq in Hserver. apply String.eqb_neq in Htool.
  unfold handleCommand. rewrite Hact. simpl. rewrite Hserver, Htool. simpl.
  unfold callTool. unfold bind at 1. unfold bind at 1. rewrite Hget.
  unfold bind at 1. unfold CallTool. unfold bind at 1. rewrite Hinit. simpl.
  unfold bind at 1. rewrite Hreq.
  by destruct (resp_Error resp).
Qed.

End Call_more.

(** ** Token refresh (mcp.go) *)

Section Refresh_more.

Variable env : Env.

Lemma RefreshOAuthToken_run serverName serverConfig tokenData w oa hresp :
  sc_OAuth serverConfig = Some oa ->
  oa_TokenURL oa <> "" ->
  env_bad_url env (oa_TokenURL oa) = None ->
  env_http env (w_trace w) (refreshRequest env serverConfig oa tokenData) = Ok hresp ->
  RefreshOAuthToken env serverName serverConfig tokenData w =
  if negb (hr_StatusCode hresp =? 200)%Z
  then (Done (Err ("token refresh failed: " ++ pretty (hr_StatusCode hresp))),
        emit (EvHTTP (refreshRequest env serverConfig oa tokenData)) w)
  else
    match decodeBody env decodeTokenData (hr_Body hresp) with
    | Err e => (Done (Err e), emit (EvHTTP (refreshRequest env serverConfig oa tokenData)) w)
    | Ok newTokenData =>
        let stored := keepRefreshToken (tok_RefreshToken tokenData)
                        (stampExpiry (unixNow w) newTokenData) in
        (Done (Ok (tok_AccessToken stored)),
         (SaveTokens (<[serverName := stored]> (storedTokens w))
            (emit (EvHTTP (refreshRequest env serverConfig oa tokenData)) w)).2)
    end.
Proof.
  intros Hoa Hurl Hbad Hhttp. apply String.eqb_neq in Hurl.
  unfold RefreshOAuthToken, refreshRequest in *. rewrite Hoa, Hurl, Hbad. run.
  rewrite Hhttp. destruct (negb (hr_StatusCode hresp =? 200)%Z); [done|].
  destruct (decodeBody env decodeTokenData (hr_Body hresp)) as [new|e]; [|done].
  unfold storeToken, storedTokens, SaveTokens. run.
  by destruct (w_write_error w).
Qed.

Lemma stored_access_token old now new :
  tok_AccessToken (keepRefreshToken old (stampExpiry now new)) = tok_AccessToken new.
Proof.
  unfold keepRefreshToken, stampExpiry.
  by repeat (case_match; simpl).
Qed.

(** X8. A successful refresh: one form-encoded POST to the token endpoint
    with the record's refresh token and the client ID; the reply's access
    token is returned; the record written under the server's name keeps
    the old refresh token when the reply carries none, gets
    [expires_at = now + expires_in] when the reply carries a positive
    [expires_in], and leaves the records of other servers alone. *)
Theorem RefreshOAuthToken_success serverName serverConfig tokenData w oa hresp fresh :
  sc_OAuth serverConfig = Some oa ->
  oa_TokenURL oa <> "" ->
  env_bad_url env (oa_TokenURL oa) = None ->
  env_http env (w_trace w) (refreshRequest env serverConfig oa tokenData) = Ok hresp ->
  hr_StatusCode hresp = 200%Z ->
  decodeBody env decodeTokenData (hr_Body hresp) = Ok fresh ->
  w_write_error w = None ->
  exists stored w',
    RefreshOAuthToken env serverName serverConfig tokenData w
    = (Done (Ok (tok_AccessToken fresh)), w') /\
    newEvents w w' = [EvHTTP (refreshRequest env serverConfig oa tokenData)] /\
    LoadTokens w' = Ok (Some (<[serverName := stored]> (storedTokens w))) /\
    tok_AccessToken stored = tok_AccessToken fresh /\
    tok_RefreshToken stored =
      (if String.eqb (tok_RefreshToken fresh) "" then tok_RefreshToken tokenData
       else tok_RefreshToken fresh) /\
    tok_ExpiresAt stored =
      (if (0 <? tok_ExpiresIn fresh)%Z then unixNow w + tok_ExpiresIn fresh
       else tok_ExpiresAt fresh)%Z.
Proof.
  intros Hoa Hurl Hbad Hhttp Hstatus Hbody Hwrite.
  rewrite (RefreshOAuthToken_run _ _ _ _ _ _ Hoa Hurl Hbad Hhttp), Hstatus, Hbody.
  simpl. eexists _, _. split_and!.
  - by rewrite stored_access_token.
  - unfold SaveTokens. simpl. rewrite Hwrite. simpl. apply newEvents_emit.
  - unfold SaveTokens. simpl. by rewrite Hwrite.
  - apply stored_access_token.
  - unfold keepRefreshToken, stampExpiry. by repeat (case_match; simpl in * ).
  - unfold keepRefreshToken, stampExpiry. by repeat (case_match; simpl in * ).
Qed.

(** X9. Refresh and lookup compose: when the lookup refreshes an expired
    record and the reply carries a non-empty access token with a positive
    lifetime, the lookup returns that token, and so does every later
    lookup on the store it left, without sending anything, as long as the
    clock is not past the new expiry less 60 seconds. *)
Theorem GetTokenForServer_after_refresh serverName serverConfig w tokens tokenData oa hresp
    fresh :
  LoadTokens w = Ok tokens ->
  lookup_nilable tokens serverName = Some tokenData ->
  ~ validWindow (unixNow w) tokenData ->
  tok_RefreshToken tokenData <> "" ->
  sc_OAuth serverConfig = Some oa ->
  oa_TokenURL oa <> "" ->
  env_bad_url env (oa_TokenURL oa) = None ->
  env_http env (w_trace w) (refreshRequest env serverConfig oa tokenData) = Ok hresp ->
  hr_StatusCode hresp = 200%Z ->
  decodeBody env decodeTokenData (hr_Body hresp) = Ok fresh ->
  w_write_error w = None ->
  tok_AccessToken fresh <> "" ->
  (0 < tok_ExpiresIn fresh)%Z ->
  exists w',
    GetTokenForServer env serverName serverConfig w
    = (Done (tok_AccessToken fresh, None), w') /\
    forall w2,
      w_tokens_file w2 = w_tokens_file w' ->
      (unixNow w2 <= unixNow w + tok_ExpiresIn fresh - 60)%Z ->
      GetTokenForServer env serverName serverConfig w2
      = (Done (tok_AccessToken fresh, None), w2).
Proof.
  intros Hload Hrec Hout Hrt Hoa Hurl Hbad Hhttp Hstatus Hbody Hwrite Hacc Hlong.
  pose proof (RefreshOAuthToken_run serverName _ tokenData _ _ _ Hoa Hurl Hbad Hhttp) as Hrun.
  rewrite Hstatus, Hbody in Hrun. simpl in Hrun.
  set (stored := keepRefreshToken (tok_RefreshToken tokenData)
                   (stampExpiry (unixNow w) fresh)) in *.
  set (w' := (SaveTokens (<[serverName := stored]> (storedTokens w))
                (emit (EvHTTP (refreshRequest env serverConfig oa tokenData)) w)).2) in *.
  assert (Hacc' : tok_AccessToken stored = tok_AccessToken fresh)
    by apply stored_access_token.
  exists w'. split.
  - unfold GetTokenForServer. run. rewrite Hload, Hrec.
    rewrite <- tokenExpired_false in Hout. apply not_false_is_true in Hout.
    rewrite Hout. apply String.eqb_neq in Hrt. rewrite Hrt. simpl.
    rewrite Hrun, Hacc'. apply String.eqb_neq in Hacc. by rewrite Hacc.
  - intros w2 Hfile Hclock.
    assert (Hload' : LoadTokens w2 = Ok (Some (<[serverName := stored]> (storedTokens w)))).
    { unfold LoadTokens. rewrite Hfile. subst w'. unfold SaveTokens. simpl.
      by rewrite Hwrite. }
    assert (Hwin : tokenExpired (unixNow w2) stored = false).
    { apply tokenExpired_false. right.
      subst stored. unfold keepRefreshToken, stampExpiry.
      assert (Hpos : (0 <? tok_ExpiresIn fresh)%Z = true) by (apply Z.ltb_lt; lia).
      rewrite Hpos. destruct (String.eqb _ ""); simpl; lia. }
    unfold GetTokenForServer. run. rewrite Hload'. simpl.
    rewrite lookup_insert_eq, Hwin. by rewrite Hacc'.
Qed.

(** X10. A refresh that fails stores nothing: whenever [RefreshOAuthToken]
    returns an error, no file of the state directory has changed; and any
    status other than 200 is such a failure. *)
Theorem RefreshOAuthToken_failure_keeps_tokens serverName serverConfig tokenData w e w' :
  RefreshOAuthToken env serverName serverConfig tokenData w = (Done (Err e), w') ->
  w_tokens_file w' = w_tokens_file w /\
  w_sessions_file w' = w_sessions_file w /\
  w_registrations_file w' = w_registrations_file w /\
  w_config_file w' = w_config_file w.
Proof.
  unfold RefreshOAuthToken, storeToken, SaveTokens. run.
  repeat (case_match; run); intros; by simplify_eq.
Qed.

End Refresh_more.

(** ** Reload and shutdown (daemon.go) *)

Section Daemon_more.

Variable env : Env.

Lemma sameFiles_refl w : sameFiles w w.
Proof. by repeat split. Qed.




Lemma elem_of_map_to_list_keys {V} (m : gmap string V) name :
  name ∈ (map_to_list m).*1 <-> is_Some (m !! name).
Proof.
  rewrite list_elem_of_fmap. split.
  - intros ([k v] & -> & Hin). apply elem_of_map_to_list in Hin. by eexists.
  - intros [v Hv]. exists (name, v). split; [done|]. by apply elem_of_map_to_list.
Qed.


Lemma lookup_fold_delete {V} (l : list (string * MCPClient)) (m : gmap string V) name :
  fold_left (fun acc entry => delete entry.1 acc) l m !! name =
  if decide (name ∈ l.*1) then None else m !! name.
Proof.
  revert m. induction l as [|entry l IH]; intros m; simpl.
  - destruct (decide (name ∈ [])) as [Hin|_]; [by apply elem_of_nil in Hin|done].
  - rewrite IH. destruct (decide (name ∈ l.*1)) as [Hin|Hout].
    + rewrite decide_True; [done|]. by apply list_elem_of_further.
    + destruct (decide (name = entry.1)) as [->|Hne].
      * rewrite lookup_delete_eq. rewrite decide_True; [done|]. apply list_elem_of_here.
      * rewrite lookup_delete_ne by done. rewrite decide_False; [done|].
        intros Hin. apply elem_of_cons in Hin. by destruct Hin.
Qed.

Lemma forEach_closeClient l d w :
  exists d' w',
    forEach closeClient l d w = (Done d', w') /\
    d_clients d' = fold_left (fun acc entry => delete entry.1 acc) l (d_clients d) /\
    d_config d' = d_config d /\
    d_toolsCache d' = d_toolsCache d /\
    d_processes d' = d_processes d /\
    d_running d' = d_running d /\
    w_trace w' = (w_trace w ++ closeEvents l)%list /\
    sameFiles w w'.
Proof.
  revert d w. induction l as [|entry l IH]; intros d w.
  - eexists _, _. split; [done|]. simpl. rewrite app_nil_r.
    split_and!; done || apply sameFiles_refl.
  - simpl. unfold bind at 1. unfold closeClient at 1, Close. run.
    destruct (IH (set_clients (delete entry.1 (d_clients d)) d)
                 (emit (EvClose (c_serverName entry.2)) w))
      as (d' & w' & Hrun & Hclients & Hconfig & Hcache & Hproc & Hrunning & Htrace & Hfiles).
    exists d', w'. split; [done|]. split_and!; try done.
    rewrite Htrace. simpl. by rewrite <- app_assoc.
Qed.

(** X12. The cleanup at shutdown: [closeAllClients] closes every held
    client exactly once and nothing else, and leaves the daemon without
    clients and without cached tools; the configuration and the files are
    as before. *)
Theorem closeAllClients_closes_everything d w :
  exists d' w',
    closeAllClients d w = (Done d', w') /\
    d_clients d' = ∅ /\
    d_toolsCache d' = ∅ /\
    d_config d' = d_config d /\
    newEvents w w' = closeEvents (map_to_list (d_clients d)) /\
    sameFiles w w'.
Proof.
  destruct (forEach_closeClient (map_to_list (d_clients d)) d w)
    as (d' & w' & Hrun & Hclients & Hconfig & _ & _ & _ & Htrace & Hfiles).
  exists (set_toolsCache ∅ d'), w'.
  unfold closeAllClients. unfold bind at 1. rewrite Hrun. run.
  split_and!; try done.
  - rewrite Hclients. apply map_eq. intros name.
    rewrite lookup_fold_delete, lookup_empty.
    destruct (decide _) as [_|Hout]; [done|].
    destruct (d_clients d !! name) eqn:Hlook; [|done].
    exfalso. apply Hout. apply elem_of_map_to_list_keys. by eexists.
  - by apply newEvents_of_trace.
Qed.

End Daemon_more.

(** ** Commands (daemon.go, main.go) *)

Section Command_more.

Variable env : Env.

(** X13. The tools cache round trip: once [getTools] has fetched the tools
    of a server from upstream, every later [getTools] for that server on
    the resulting daemon, at a clock before the entry's expiry (the clock
    at the fetch plus [ToolsCacheTTL]), returns the same tools and changes
    neither the daemon nor the world. *)
Theorem getTools_then_cached d serverName w d1 tools w1 w2 :
  freshTools d serverName w = None ->
  getTools env d serverName w = (Done (d1, Ok tools), w1) ->
  (w_clock w2 < w_clock w1 + ToolsCacheTTL)%Z ->
  getTools env d1 serverName w2 = (Done (d1, Ok tools), w2).
Proof.
  intros Hfresh Hget Hclock.
  unfold getTools in Hget. unfold bind at 1 in Hget. unfold get_world in Hget.
  rewrite Hfresh in Hget. unfold bind at 1 in Hget.
  destruct (getClient env d serverName w) as [[[d0 [client|e]]|] w0]; [|done|done].
  unfold bind at 1 in Hget.
  destruct (ListTools env client w0) as [[[client' [tools'|e]]|] w0']; [|done|done].
  unfold bind, get_world, ret in Hget. simplify_eq.
  unfold getTools. run. unfold freshTools. simpl.
  rewrite lookup_insert_eq. simpl.
  apply Z.ltb_lt in Hclock. by rewrite Hclock.
Qed.

Lemma reloadConfig_returns d w :
  exists d' err w', reloadConfig d w = (Done (d', err), w').
Proof.
  unfold reloadConfig. run. destruct (LoadConfig w) as [config|e]; [|by eexists _, _, _].
  destruct (forEach_reloadClient_spec (d_config d) (map_to_list (d_clients d))
              (set_config config d) w) as (d' & w' & Hrun & _).
  rewrite Hrun. by eexists _, _, _.
Qed.

(** X14. The shape of every answer of [handleCommand].  The function
    panics only inside a [tools] or a [call] command; otherwise it answers
    either [ok = true] without an error, or [ok = false] without data and
    with an error whose code is one of [INVALID_ARGS], [MCP_ERROR] and
    [UNKNOWN_ACTION]. *)
Theorem handleCommand_response_shape d cmd w :
  match (handleCommand env d cmd w).1 with
  | Panic => cmd_Action cmd = "tools" \/ cmd_Action cmd = "call"
  | Done (_, r) =>
      (r_OK r = true /\ r_Error r = None) \/
      (r_OK r = false /\ r_Data r = JNull /\
       exists code message,
         r_Error r = Some (mkErrorResponse code message) /\
         code ∈ [ErrInvalidArgs; ErrMCPError; ErrUnknownAction])
  end.
Proof.
  assert (Hin1 : ErrInvalidArgs ∈ [ErrInvalidArgs; ErrMCPError; ErrUnknownAction])
    by apply list_elem_of_here.
  assert (Hin2 : ErrMCPError ∈ [ErrInvalidArgs; ErrMCPError; ErrUnknownAction])
    by (apply list_elem_of_further, list_elem_of_here).
  assert (Hin3 : ErrUnknownAction ∈ [ErrInvalidArgs; ErrMCPError; ErrUnknownAction])
    by (do 2 apply list_elem_of_further; apply list_elem_of_here).
  unfold handleCommand.
  destruct (String.eqb (cmd_Action cmd) "ping"); [by left|].
  destruct (String.eqb (cmd_Action cmd) "reload").
  { destruct (reloadConfig_returns d w) as (d' & err & w' & Hrun).
    unfold bind at 1. rewrite Hrun. destruct err; simpl.
    - right. split_and!; try done. by eexists _, _.
    - by left. }
  destruct (String.eqb (cmd_Action cmd) "servers"); [by left|].
  destruct (String.eqb (cmd_Action cmd) "tools") eqn:Htools.
  { apply String.eqb_eq in Htools.
    destruct (String.eqb (cmd_Server cmd) "").
    - right. split_and!; try done. by eexists _, _.
    - unfold bind at 1.
      destruct (getTools env d (cmd_Server cmd) w) as [[[d' [tools|e]]|] w']; simpl.
      + by left.
      + right. split_and!; try done. by eexists _, _.
      + by left. }
  destruct (String.eqb (cmd_Action cmd) "call") eqn:Hcall.
  { apply String.eqb_eq in Hcall.
    destruct (String.eqb (cmd_Server cmd) "" || String.eqb (cmd_Tool cmd) "").
    - right. split_and!; try done. by eexists _, _.
    - unfold bind at 1.
      destruct (callTool env d (cmd_Server cmd) (cmd_Tool cmd) (cmd_Arguments cmd) w)
        as [[[d' [result|e]]|] w']; simpl.
      + by left.
      + right. split_and!; try done. by eexists _, _.
      + by right. }
  destruct (String.eqb (cmd_Action cmd) "status"); [by left|].
  destruct (String.eqb (cmd_Action cmd) "shutdown"); [by left|].
  right. split_and!; try done. by eexists _, _.
Qed.

(** X15. Commands that need no upstream server.  Any command other than
    [reload] and [shutdown] that is not a [tools] command with a server
    name nor a [call] command with server and tool names is answered with
    the daemon and the world unchanged; the answer is [ok] exactly for
    [ping], [servers] and [status], [INVALID_ARGS] for the incomplete
    [tools] and [call], and [UNKNOWN_ACTION] naming the action for
    everything else. *)
Theorem handleCommand_without_server d cmd w :
  cmd_Action cmd <> "reload" ->
  cmd_Action cmd <> "shutdown" ->
  (cmd_Action cmd = "tools" -> cmd_Server cmd = "") ->
  (cmd_Action cmd = "call" -> cmd_Server cmd = "" \/ cmd_Tool cmd = "") ->
  exists r,
    handleCommand env d cmd w = (Done (d, r), w) /\
    (r_OK r = true <-> cmd_Action cmd ∈ ["ping"; "servers"; "status"]) /\
    (cmd_Action cmd ∈ ["tools"; "call"] ->
     exists message, r = errResponse ErrInvalidArgs message) /\
    (cmd_Action cmd ∉ ["ping"; "servers"; "status"; "tools"; "call"] ->
     r = errResponse ErrUnknownAction ("unknown action: " ++ cmd_Action cmd)).
Proof.
  intros Hreload Hshutdown Htools Hcall.
  apply String.eqb_neq in Hreload. apply String.eqb_neq in Hshutdown.
  unfold handleCommand. rewrite Hreload, Hshutdown.
  destruct (String.eqb (cmd_Action cmd) "ping") eqn:E1.
  { apply String.eqb_eq in E1. rewrite E1. eexists. split; [done|].
    split_and!.
    - split; [intros _; apply list_elem_of_here|done].
    - rewrite !elem_of_cons, elem_of_nil. intuition congruence.
    - rewrite !elem_of_cons. intuition congruence. }
  destruct (String.eqb (cmd_Action cmd) "servers") eqn:E2.
  { apply String.eqb_eq in E2. rewrite E2. eexists. split; [done|].
    split_and!.
    - split; [intros _; rewrite !elem_of_cons; intuition congruence|done].
    - rewrite !elem_of_cons, elem_of_nil. intuition congruence.
    - rewrite !elem_of_cons. intuition congruence. }
  destruct (String.eqb (cmd_Action cmd) "tools") eqn:E3.
  { apply String.eqb_eq in E3. rewrite (Htools E3). rewrite E3. simpl.
    eexists. split; [done|]. split_and!.
    - split; [done|]. rewrite !elem_of_cons, elem_of_nil. intuition congruence.
    - intros _. by eexists.
    - rewrite !elem_of_cons. intuition congruence. }
  destruct (String.eqb (cmd_Action cmd) "call") eqn:E4.
  { apply String.eqb_eq in E4.
    assert (Hempty : String.eqb (cmd_Server cmd) "" || String.eqb (cmd_Tool cmd) "" = true).
    { destruct (Hcall E4) as [->| ->]; [done|]. apply orb_true_r. }
    rewrite Hempty, E4. eexists. split; [done|]. split_and!.
    - split; [done|]. rewrite !elem_of_cons, elem_of_nil. intuition congruence.
    - intros _. by eexists.
    - rewrite !elem_of_cons. intuition congruence. }
  destruct (String.eqb (cmd_Action cmd) "status") eqn:E5.
  { apply String.eqb_eq in E5. rewrite E5. run. eexists. split; [done|].
    split_and!.
    - split; [intros _; rewrite !elem_of_cons; intuition congruence|done].
    - rewrite !elem_of_cons, elem_of_nil. intuition congruence.
    - rewrite !elem_of_cons. intuition congruence. }
  apply String.eqb_neq in E1, E2, E3, E4, E5.
  eexists. split; [done|]. split_and!.
  - split; [done|]. rewrite !elem_of_cons, elem_of_nil. intuition congruence.
  - rewrite !elem_of_cons, elem_of_nil. intuition congruence.
  - done.
Qed.


Lemma NewMCPDaemon_fresh w d w' :
  NewMCPDaemon w = (Done (Ok d), w') ->
  w' = w /\ LoadConfig w = Ok (d_config d) /\ d = mkMCPDaemon (d_config d) ∅ ∅ [] true.
Proof.
  unfold NewMCPDaemon. run. destruct (LoadConfig w); run; intros; by simplify_eq.
Qed.



(** X19. A server that is not configured: the one-shot commands answer
    [NOT_FOUND], the daemon (here freshly started) answers [MCP_ERROR];
    neither touches files or network. *)
Theorem unconfigured_server_codes d w serverName toolName argsJSON arguments :
  NewMCPDaemon w = (Done (Ok d), w) ->
  cfg_Servers (d_config d) !! serverName = None ->
  serverName <> "" ->
  toolName <> "" ->
  Main.unmarshalArguments env argsJSON = Ok arguments ->
  Main.listTools env serverName w
  = (Done (errResponse ErrNotFound
             ("Server '" ++ serverName ++ "' not configured. Run --servers to list.")), w) /\
  Main.callTool env serverName toolName argsJSON w
  = (Done (errResponse ErrNotFound
             ("Server '" ++ serverName ++ "' not configured. Run --servers to list.")), w) /\
  Main.doAuth env serverName w
  = (Done (Some (errResponse ErrNotFound ("Server '" ++ serverName ++ "' not configured"))),
     w) /\
  Main.daemonTools env d serverName w
  = (Done (d, errResponse ErrMCPError ("server '" ++ serverName ++ "' not configured")), w) /\
  Main.daemonQuery env d serverName toolName argsJSON w
  = (Done (d, errResponse ErrMCPError ("server '" ++ serverName ++ "' not configured")), w).
Proof.
  intros Hnew Hcfg Hserver Htool Hargs.
  apply NewMCPDaemon_fresh in Hnew as (_ & Hload & Hd).
  apply String.eqb_neq in Hserver. apply String.eqb_neq in Htool.
  destruct d as [config clients cache procs running]. simpl in *. simplify_eq.
  split_and!.
  - unfold Main.listTools. run. by rewrite Hload, Hcfg.
  - unfold Main.callTool. run. by rewrite Hload, Hcfg.
  - unfold Main.doAuth. run. by rewrite Hload, Hcfg.
  - unfold Main.daemonTools, DaemonSend, handleConnection.
    rewrite decode_encode_DaemonCommand. simpl.
    unfold handleCommand. simpl. rewrite Hserver. simpl.
    unfold getTools, freshTools, getClient. simpl.
    rewrite !lookup_empty, Hcfg.
    unfold bind, get_world, ret. cbn beta iota zeta.
    by rewrite roundtrip_Response.
  - unfold Main.daemonQuery, DaemonSend, handleConnection. rewrite Hargs.
    rewrite decode_encode_DaemonCommand. simpl.
    unfold handleCommand. simpl. rewrite Hserver, Htool. simpl.
    unfold callTool, getClient. simpl.
    rewrite !lookup_empty, Hcfg.
    unfold bind, get_world, ret. cbn beta iota zeta.
    by rewrite roundtrip_Response.
Qed.

(** X20. Arguments that are not a JSON object (or [null]) are refused with
    [INVALID_JSON] before anything is sent: by [daemonQuery] before the
    daemon is even contacted, by [callTool] once the server has been found
    in the configuration; a server that is not configured takes
    precedence there. *)
Theorem invalid_arguments_before_network d w config serverName toolName argsJSON e :
  Main.unmarshalArguments env argsJSON = Err e ->
  LoadConfig w = Ok config ->
  Main.daemonQuery env d serverName toolName argsJSON w
  = (Done (d, errResponse ErrInvalidJSON ("Invalid JSON arguments: " ++ e)), w) /\
  Main.callTool env serverName toolName argsJSON w
  = (Done (match cfg_Servers config !! serverName with
           | Some _ => errResponse ErrInvalidJSON ("Invalid JSON arguments: " ++ e)
           | None => Main.notConfigured serverName
           end), w).
Proof.
  intros Hargs Hload. split.
  - unfold Main.daemonQuery. by rewrite Hargs.
  - unfold Main.callTool. run. rewrite Hload.
    destruct (cfg_Servers config !! serverName); [|done]. by rewrite Hargs.
Qed.

End Command_more.

(** ** The authorization-code flow (oauth.go) *)

Section OAuth_more.

Variable env : Env.

Lemma SaveTokens_world m w :
  w_trace (SaveTokens m w).2 = w_trace w /\
  w_clock (SaveTokens m w).2 = w_clock w /\
  w_write_error (SaveTokens m w).2 = w_write_error w.
Proof. unfold SaveTokens. destruct (w_write_error w) eqn:E; by repeat split. Qed.

Lemma exchangeCode_trace serverName discovery code clientID clientSecret codeVerifier w :
  env_bad_url env (od_TokenURL discovery) = None ->
  w_trace (exchangeCode env serverName discovery code clientID clientSecret codeVerifier w).2
  = (w_trace w
     ++ [EvHTTP (exchangeRequest env discovery code clientID clientSecret codeVerifier)])%list.
Proof.
  intros Hbad. unfold exchangeCode, exchangeRequest. rewrite Hbad. run.
  destruct (env_http env (w_trace w) _) as [hresp|e]; [|done].
  destruct (negb (hr_StatusCode hresp =? 200)%Z && negb (hr_StatusCode hresp =? 201)%Z);
    [done|].
  destruct (decodeBody env decodeTokenData (hr_Body hresp)) as [tokenResp|e]; [|done].
  unfold storeToken, SaveTokens. run.
  by destruct (w_write_error w).
Qed.


(** X22. Authorization and lookup compose: when the token endpoint accepts
    the code (200 or 201) with a token of positive lifetime and the store
    can be written, [exchangeCode] stores the reply under the server's
    name with [expires_at = now + expires_in], keeps the records of other
    servers, and every later [GetTokenForServer] on that store returns the
    new access token without sending anything, as long as the clock is not
    past the expiry less 60 seconds. *)
Theorem exchangeCode_then_lookup serverName serverConfig discovery code clientID
    clientSecret codeVerifier w hresp tokenResp :
  env_bad_url env (od_TokenURL discovery) = None ->
  env_http env (w_trace w)
    (exchangeRequest env discovery code clientID clientSecret codeVerifier) = Ok hresp ->
  (hr_StatusCode hresp = 200 \/ hr_StatusCode hresp = 201)%Z ->
  decodeBody env decodeTokenData (hr_Body hresp) = Ok tokenResp ->
  w_write_error w = None ->
  (0 < tok_ExpiresIn tokenResp)%Z ->
  exists w',
    exchangeCode env serverName discovery code clientID clientSecret codeVerifier w
    = (Done None, w') /\
    LoadTokens w' =
      Ok (Some (<[serverName :=
                   mkTokenData (tok_AccessToken tokenResp) (tok_RefreshToken tokenResp)
                     (tok_ExpiresIn tokenResp) (unixNow w + tok_ExpiresIn tokenResp)
                     (tok_TokenType tokenResp)]> (storedTokens w))) /\
    forall w2,
      w_tokens_file w2 = w_tokens_file w' ->
      (unixNow w2 <= unixNow w + tok_ExpiresIn tokenResp - 60)%Z ->
      GetTokenForServer env serverName serverConfig w2
      = (Done (tok_AccessToken tokenResp, None), w2).
Proof.
  intros Hbad Hhttp Hstatus Hbody Hwrite Hlong.
  assert (Hcode : negb (hr_StatusCode hresp =? 200)%Z && negb (hr_StatusCode hresp =? 201)%Z
                  = false).
  { destruct Hstatus as [-> | ->]; done. }
  assert (Hpos : (0 <? tok_ExpiresIn tokenResp)%Z = true) by (apply Z.ltb_lt; lia).
  unfold exchangeCode, exchangeRequest in *. rewrite Hbad. run.
  rewrite Hhttp, Hcode, Hbody. unfold storeToken, SaveTokens. run. rewrite Hwrite. simpl.
  eexists. split; [done|].
  unfold stampExpiry. rewrite Hpos. split; [done|].
  intros w2 Hfile Hclock.
  unfold GetTokenForServer. run.
  unfold LoadTokens at 1. rewrite Hfile. simpl. rewrite lookup_insert_eq.
  unfold tokenExpired. simpl.
  replace (unixNow w + tok_ExpiresIn tokenResp - 60 <? _)%Z with false; [by rewrite andb_false_r|].
  symmetry. apply Z.ltb_ge. lia.
Qed.

Lemma clientCredentials_no_browser serverName serverConfig discovery scope w out w' :
  clientCredentials env serverName serverConfig discovery scope w = (out, w') ->
  exists evs, w_trace w' = (w_trace w ++ evs)%list /\
              Forall (fun ev => isBrowser ev = false) evs.
Proof.
  unfold clientCredentials, doDynamicClientRegistration, SaveRegistration. run.
  repeat (case_match; run); intros; simplify_eq; simpl;
    first [ by (exists []; rewrite app_nil_r; split; [done|constructor])
          | by (eexists [_]; split; [done|repeat constructor]) ].
Qed.

Lemma clientCredentials_files serverName serverConfig discovery scope w out w' :
  clientCredentials env serverName serverConfig discovery scope w = (out, w') ->
  w_tokens_file w' = w_tokens_file w /\ w_write_error w' = w_write_error w /\
  w_clock w' = w_clock w.
Proof.
  unfold clientCredentials, doDynamicClientRegistration, SaveRegistration. run.
  repeat (case_match; run); intros; by simplify_eq.
Qed.

Lemma discover_world serverName serverConfig w :
  (discover env serverName serverConfig w).2 = w.
Proof. unfold discover. repeat (case_match; run); done. Qed.

Lemma awaitAuthorization_browser_run serverName serverConfig w out w1 :
  awaitAuthorization env serverName serverConfig w = (out, w1) ->
  match out with
  | Done (Ok (ctx, _)) =>
      fc_clientID ctx <> "" /\
      od_AuthURL (fc_discovery ctx) <> "" /\
      od_TokenURL (fc_discovery ctx) <> "" /\
      exists evs url,
        newEvents w w1 = (evs ++ [EvBrowser url])%list /\
        Forall (fun ev => isBrowser ev = false) evs
  | _ => Forall (fun ev => isBrowser ev = false) (newEvents w w1)
  end.
Proof.
  assert (Hnil : Forall (fun ev => isBrowser ev = false) (newEvents w w)).
  { rewrite newEvents_refl. constructor. }
  unfold awaitAuthorization. unfold bind at 1.
  pose proof (discover_world serverName serverConfig w) as Hdisc.
  destruct (discover env serverName serverConfig w) as [[found|] w0]; simpl in Hdisc;
    subst w0; [|by intros [= <- <-]].
  destruct found as [discovery|e]; [|by intros [= <- <-]].
  destruct (String.eqb (od_AuthURL discovery) "") eqn:Hauth; [by intros [= <- <-]|].
  destruct (String.eqb (od_TokenURL discovery) "") eqn:Htoken; [by intros [= <- <-]|].
  cbn [orb]. unfold bind at 1.
  destruct (clientCredentials env serverName serverConfig discovery
              (chooseScope serverConfig discovery) w)
    as [[[clientID clientSecret]|] w2] eqn:Hcred;
    apply clientCredentials_no_browser in Hcred as (evs & Htr & Hquiet);
    [|intros [= <- <-]; by rewrite (newEvents_of_trace _ _ _ Htr)].
  destruct (String.eqb clientID "") eqn:Hid;
    [intros [= <- <-]; by rewrite (newEvents_of_trace _ _ _ Htr)|].
  unfold generatePKCE, generateState, waitForCallback. run.
  destruct (env_rand env (w_trace w2) 32) as [b32|];
    [|intros [= <- <-]; by rewrite (newEvents_of_trace _ _ _ Htr)].
  simpl.
  destruct (env_rand env (w_trace w2) 16) as [b16|];
    [|intros [= <- <-]; by rewrite (newEvents_of_trace _ _ _ Htr)].
  simpl. intros [= <- <-].
  apply String.eqb_neq in Hauth, Htoken, Hid. split_and!; try done.
  eexists evs, _. split; [|done].
  apply newEvents_of_trace. simpl. by rewrite Htr, app_assoc.
Qed.

(** X23. The browser is opened at most once, and only when the flow knows
    both endpoints and a client ID: if [DoOAuthFlow] gets as far as
    waiting for the callback, the authorization and token URLs and the
    client ID are non-empty and the browser was opened as the last thing
    before the wait; on every other path, panics included, no browser is
    opened. *)
Theorem awaitAuthorization_browser serverName serverConfig w :
  match (awaitAuthorization env serverName serverConfig w).1 with
  | Done (Ok (ctx, _)) =>
      fc_clientID ctx <> "" /\
      od_AuthURL (fc_discovery ctx) <> "" /\
      od_TokenURL (fc_discovery ctx) <> "" /\
      exists evs url,
        newEvents w (awaitAuthorization env serverName serverConfig w).2
        = (evs ++ [EvBrowser url])%list /\
        Forall (fun ev => isBrowser ev = false) evs
  | _ =>
      Forall (fun ev => isBrowser ev = false)
        (newEvents w (awaitAuthorization env serverName serverConfig w).2)
  end.
Proof.
  destruct (awaitAuthorization env serverName serverConfig w) as [out w1] eqn:Hawait.
  apply awaitAuthorization_browser_run in Hawait. simpl.
  destruct out as [[[ctx cb]|e]|]; done.
Qed.

Lemma awaitAuthorization_files serverName serverConfig w out w1 :
  awaitAuthorization env serverName serverConfig w = (out, w1) ->
  w_tokens_file w1 = w_tokens_file w /\ w_write_error w1 = w_write_error w /\
  w_clock w1 = w_clock w.
Proof.
  unfold awaitAuthorization. unfold bind at 1.
  pose proof (discover_world serverName serverConfig w) as Hdisc.
  destruct (discover env serverName serverConfig w) as [[found|] w0]; simpl in Hdisc;
    subst w0; [|by intros [= <- <-]].
  destruct found as [discovery|e]; [|by intros [= <- <-]].
  case_match; [by intros [= <- <-]|].
  unfold bind at 1.
  destruct (clientCredentials env serverName serverConfig discovery
              (chooseScope serverConfig discovery) w)
    as [[[clientID clientSecret]|] w2] eqn:Hcred;
    apply clientCredentials_files in Hcred as (Htok & Hwr & Hclk);
    [|by intros [= <- <-]].
  case_match; [by intros [= <- <-]|].
  unfold generatePKCE, generateState, waitForCallback. run.
  destruct (env_rand env (w_trace w2) 32) as [b32|]; [|by intros [= <- <-]].
  simpl.
  destruct (env_rand env (w_trace w2) 16) as [b16|]; [|by intros [= <- <-]].
  simpl. by intros [= <- <-].
Qed.

(** X24. The token store changes only through a completed exchange: if
    the tokens file after [DoOAuthFlow] differs from the one before, then
    the flow succeeded, the callback had left no error, a code and the
    state this flow generated, and the request sent after the callback was
    the exchange of that code. *)
Theorem DoOAuthFlow_stores_only_after_exchange serverName serverConfig w out w' :
  DoOAuthFlow env serverName serverConfig w = (out, w') ->
  w_tokens_file w' <> w_tokens_file w ->
  out = Done None /\
  exists ctx callbackServer w1,
    awaitAuthorization env serverName serverConfig w
    = (Done (Ok (ctx, callbackServer)), w1) /\
    cb_err callbackServer = "" /\
    cb_authCode callbackServer <> "" /\
    cb_state callbackServer = fc_state ctx /\
    newEvents w1 w' =
      [EvHTTP (exchangeRequest env (fc_discovery ctx) (cb_authCode callbackServer)
                 (fc_clientID ctx) (fc_clientSecret ctx) (fc_codeVerifier ctx))].
Proof.
  unfold DoOAuthFlow. unfold bind.
  destruct (awaitAuthorization env serverName serverConfig w) as [r w1] eqn:Hawait.
  pose proof (awaitAuthorization_files _ _ _ _ _ Hawait) as (Htok & Hwr & Hclk).
  destruct r as [[[ctx cb]|e]|]; try (intros [= _ <-] Hne; by destruct Hne).
  unfold completeFlow.
  destruct (String.eqb (cb_err cb) "") eqn:Herr; run;
    [|intros [= _ <-] Hne; by destruct Hne].
  destruct (String.eqb (cb_authCode cb) "") eqn:Hcode; run;
    [intros [= _ <-] Hne; by destruct Hne|].
  destruct (String.eqb (cb_state cb) (fc_state ctx)) eqn:Hstate; run;
    [|intros [= _ <-] Hne; by destruct Hne].
  apply String.eqb_eq in Herr, Hstate. apply String.eqb_neq in Hcode.
  destruct (env_bad_url env (od_TokenURL (fc_discovery ctx))) eqn:Hbad.
  { unfold exchangeCode. rewrite Hbad. intros [= _ <-] Hne. by destruct Hne. }
  intros Hrun Hne.
  pose proof (exchangeCode_trace serverName (fc_discovery ctx) (cb_authCode cb)
                (fc_clientID ctx) (fc_clientSecret ctx) (fc_codeVerifier ctx) w1 Hbad)
    as Htrace.
  rewrite Hrun in Htrace. simpl in Htrace.
  assert (Hout : out = Done None).
  { revert Hrun. unfold exchangeCode. rewrite Hbad. run.
    destruct (env_http env (w_trace w1) _) as [hresp|?];
      [|intros [= _ <-]; by destruct Hne].
    destruct (negb (hr_StatusCode hresp =? 200)%Z && negb (hr_StatusCode hresp =? 201)%Z);
      [intros [= _ <-]; by destruct Hne|].
    destruct (decodeBody env decodeTokenData (hr_Body hresp)) as [tokenResp|?];
      [|intros [= _ <-]; by destruct Hne].
    unfold storeToken, SaveTokens. run.
    destruct (w_write_error w1); simpl; [intros [= _ <-]; by destruct Hne|].
    by intros [= <- _]. }
  split; [done|]. exists ctx, cb, w1. split_and!; try done.
  by apply newEvents_of_trace.
Qed.



(** X26. A [registrations.json] that holds [null] crashes the flow after
    the client has been registered: with no client ID configured and a
    registration endpoint that accepts the request, [DoOAuthFlow] sends
    the registration and then panics on the assignment into the nil map;
    the registration is lost and no browser is opened. *)
Theorem DoOAuthFlow_null_registrations_panics serverName serverConfig discovery w hresp reg :
  discover env serverName serverConfig w = (Done (Ok discovery), w) ->
  od_AuthURL discovery <> "" ->
  od_TokenURL discovery <> "" ->
  od_RegistrationURL discovery <> "" ->
  noClientID serverConfig ->
  w_registrations_file w = FileData None ->
  env_bad_url env (od_RegistrationURL discovery) = None ->
  env_http env (w_trace w)
    (registrationRequest env (od_RegistrationURL discovery) redirectURI
       (chooseScope serverConfig discovery)) = Ok hresp ->
  (hr_StatusCode hresp = 200 \/ hr_StatusCode hresp = 201)%Z ->
  decodeBody env decodeRegistration (hr_Body hresp) = Ok reg ->
  exists w',
    DoOAuthFlow env serverName serverConfig w = (Panic, w') /\
    newEvents w w' =
      [EvHTTP (registrationRequest env (od_RegistrationURL discovery) redirectURI
                 (chooseScope serverConfig discovery))] /\
    w_registrations_file w' = FileData None.
Proof.
  intros Hdisc Hauth Htoken Hreg Hnone Hfile Hbad Hhttp Hstatus Hbody.
  apply String.eqb_neq in Hauth, Htoken, Hreg.
  assert (Hcode : negb (hr_StatusCode hresp =? 200)%Z && negb (hr_StatusCode hresp =? 201)%Z
                  = false).
  { destruct Hstatus as [-> | ->]; done. }
  assert (Hid : String.eqb (match sc_OAuth serverConfig with
                            | Some oa => (oa_ClientID oa, oa_ClientSecret oa)
                            | None => ("", "")
                            end).1 "" = true).
  { unfold noClientID in Hnone. destruct (sc_OAuth serverConfig); simpl; [|done].
    by rewrite Hnone. }
  unfold DoOAuthFlow, awaitAuthorization. unfold bind at 1 2. rewrite Hdisc.
  rewrite Hauth, Htoken. cbn [orb]. unfold bind at 1.
  unfold clientCredentials, registrationRequest in *. unfold bind at 1. unfold get_world.
  rewrite Hid. unfold LoadRegistrations. rewrite Hfile. cbn [lookup_nilable].
  rewrite Hid, Hreg. cbn [negb andb].
  unfold doDynamicClientRegistration. rewrite Hbad. run.
  rewrite Hhttp, Hcode, Hbody. unfold SaveRegistration, LoadRegistrations. simpl.
  rewrite Hfile. eexists. split; [done|]. split; [apply newEvents_emit|done].
Qed.

(** X27. A saved registration is reused: after [SaveRegistration] has
    written a registration with a non-empty client ID for a server whose
    configuration names no client, the next flow takes client ID and
    secret from the store and sends no registration request, whatever the
    registration endpoint. *)
Theorem SaveRegistration_then_reused serverName reg serverConfig discovery scope w w1 :
  SaveRegistration serverName reg w = (Done None, w1) ->
  noClientID serverConfig ->
  reg_ClientID reg <> "" ->
  clientCredentials env serverName serverConfig discovery scope w1
  = (Done (reg_ClientID reg, reg_ClientSecret reg), w1).
Proof.
  intros Hsave Hnone Hid. apply String.eqb_neq in Hid.
  assert (Hcfg : String.eqb (match sc_OAuth serverConfig with
                             | Some oa => (oa_ClientID oa, oa_ClientSecret oa)
                             | None => ("", "")
                             end).1 "" = true).
  { unfold noClientID in Hnone. destruct (sc_OAuth serverConfig); simpl; [|done].
    by rewrite Hnone. }
  assert (Hload : exists m, LoadRegistrations w1 = Ok (Some (<[serverName := reg]> m))).
  { revert Hsave. unfold SaveRegistration.
    destruct (LoadRegistrations w) as [[m|]|e]; try done;
      (destruct (w_write_error w); [done|]); intros [= <-]; by eexists. }
  destruct Hload as [m Hload].
  unfold clientCredentials. run. rewrite Hcfg, Hload. simpl.
  rewrite lookup_insert_eq. simpl. by rewrite Hid.
Qed.

End OAuth_more.

(** ** The state directory (config.go, mcp.go) *)

Section Store_more.

Variable env : Env.





(** X29. The session ID survives the process: when [Initialize] of a fresh
    client of a server that is not session-based found no cached session,
    got a session ID from the server and could write the store, every
    later client of that server name, for a server that is not
    session-based, adopts that ID in [Initialize] without sending a
    request, in every world whose sessions file is the one left behind. *)
Theorem Initialize_session_roundtrip c w c1 w1 c' w2 :
  sc_SessionBased (c_config c) = false ->
  (forall sessions, LoadSessions w = Ok sessions ->
                    lookup_nilable sessions (c_serverName c) = None) ->
  c_sessionID c = "" ->
  w_write_error w = None ->
  Initialize env c w = (Done (c1, None), w1) ->
  c_sessionID c1 <> "" ->
  c_serverName c' = c_serverName c ->
  sc_SessionBased (c_config c') = false ->
  w_sessions_file w2 = w_sessions_file w1 ->
  Initialize env c' w2 = (Done (SetSessionID (c_sessionID c1) c', None), w2).
Proof.
  intros Hmode Hnone Hfresh Hwrite Hinit Hsid Hname Hmode' Hfile.
  assert (Hmiss : cachedSession c w = (Done None, w)).
  { unfold cachedSession. rewrite Hmode. run.
    destruct (LoadSessions w) as [sessions|] eqn:Hload; [|done].
    by rewrite (Hnone sessions). }
  assert (Hstored : LoadSessions w1 = Ok (Some (<[c_serverName c := c_sessionID c1]>
                      match LoadSessions w with Ok m => or_empty m | Err _ => ∅ end))).
  { revert Hinit. unfold Initialize. unfold bind at 1. rewrite Hmiss.
    unfold bind at 1.
    pose proof (Request_trace env c "initialize" initializeParams w) as Htrace.
    destruct (Request env c "initialize" initializeParams w) as [[r|] w0]; [|done].
    simpl in Htrace.
    assert (Hw0 : w_write_error w0 = w_write_error w /\ LoadSessions w0 = LoadSessions w).
    { rewrite Htrace. by destruct (env_bad_url env (sc_URL (c_config c))). }
    destruct Hw0 as [Hwr Hload].
    destruct r as [sid e|[resp|] sid]; [done| |done].
    destruct (resp_Error resp); [done|].
    destruct (String.eqb sid "") eqn:Hempty; simpl.
    { intros [= <- <-]. by rewrite Hfresh in Hsid. }
    rewrite Hmode. simpl. unfold SaveSessions. run. rewrite Hwr, Hwrite. simpl.
    intros [= <- <-]. simpl. by rewrite Hload. }
  assert (Hstored2 : LoadSessions w2 = LoadSessions w1).
  { unfold LoadSessions. by rewrite Hfile. }
  unfold Initialize, cachedSession. rewrite Hmode'. run. rewrite Hstored2, Hstored. simpl.
  by rewrite Hname, lookup_insert_eq.
Qed.


End Store_more.

(** ** The properties on the fixtures *)

Lemma requestHeaders_token_and_session_witness :
  requestHeaders Scenario.env Scenario.authorizedClient !! "Authorization"
  = Some "Bearer tok-1" /\
  requestHeaders Scenario.env Scenario.authorizedClient !! "Mcp-Session-Id"
  = Some "session-1".
Proof.
  assert (Hkeys : env_canonical_key Scenario.env "Authorization"
                  <> env_canonical_key Scenario.env "Mcp-Session-Id") by discriminate.
  destruct (requestHeaders_token_and_session Scenario.env Scenario.authorizedClient Hkeys)
    as [Htoken Hsession].
  split; [apply Htoken|apply Hsession]; discriminate.
Defined.

Lemma Initialize_null_body_panics_witness :
  (Initialize Scenario.env (NewMCPClient "null" Scenario.nullServer) Fixture.world0).1
  = Panic.
Proof.
  refine (proj1 (Initialize_null_body_panics Scenario.env
                   (NewMCPClient "null" Scenario.nullServer) Fixture.world0
                   (mkHTTPResponse 200 Fixture.jsonHeader (Ok "null")) "null"
                   _ eq_refl _ eq_refl _ _)).
  - right. intros sessions [= <-]. reflexivity.
  - vm_compute; reflexivity.
  - vm_compute; reflexivity.
  - vm_compute; reflexivity.
Defined.

Lemma ListTools_session_based_reinitializes_witness :
  exists rest,
    newEvents Fixture.world0
      (ListTools Scenario.env (NewMCPClient "live" Scenario.live) Fixture.world0).2
    = EvHTTP (initializeRequest Scenario.env (NewMCPClient "live" Scenario.live)
                Fixture.world0) :: rest /\
    length rest <= 1.
Proof.
  exact (ListTools_session_based_reinitializes Scenario.env
           (NewMCPClient "live" Scenario.live) Fixture.world0 eq_refl eq_refl).
Defined.

Lemma ListTools_sends_cached_session_witness :
  exists req,
    newEvents Fixture.worldWithSession
      (ListTools Fixture.env Fixture.client0 Fixture.worldWithSession).2 = [EvHTTP req] /\
    req_URL req = "https://mcp.example.com" /\
    req_Body req = BodyJSON (encodeMCPRequest "tools/list" "request-1" JNull) /\
    req_Header req !! "Mcp-Session-Id" = Some "cached-1".
Proof.
  refine (ListTools_sends_cached_session Fixture.env Fixture.client0
            Fixture.worldWithSession (Some (<["remote" := "cached-1"]> ∅)) "cached-1"
            eq_refl eq_refl _ _ eq_refl).
  - vm_compute; reflexivity.
  - discriminate.
Defined.


Lemma handleCommand_call_outcome_witness :
  handleCommand Scenario.env Fixture.daemon0 Scenario.callEcho Fixture.world0
  = (Done (set_clients (<["remote" := Fixture.clientInitialized]>
                          (d_clients Fixture.daemon0WithClient))
             Fixture.daemon0WithClient,
           mkResponse true
             (JObj (<["server" := JStr "remote"]>
                   (<["tool" := JStr "echo"]>
                   (<["result" := JObj (<["ok" := JBool true]> ∅)]> ∅))))
             None),
     Scenario.worldCalled).
Proof.
  refine (handleCommand_call_outcome Scenario.env Fixture.daemon0 Scenario.callEcho
            Fixture.world0 Fixture.daemon0WithClient Fixture.client0 Fixture.world0
            Fixture.clientInitialized Scenario.worldInitialized Scenario.responseOk ""
            Scenario.worldCalled eq_refl _ _ _ _ _).
  - discriminate.
  - discriminate.
  - vm_compute; reflexivity.
  - vm_compute; reflexivity.
  - vm_compute; reflexivity.
Defined.

Lemma RefreshOAuthToken_success_witness :
  exists stored w',
    RefreshOAuthToken Scenario.env "remote" Fixture.withOAuth Fixture.staleToken
      Fixture.worldWithStaleToken = (Done (Ok "fresh"), w') /\
    newEvents Fixture.worldWithStaleToken w' =
      [EvHTTP (mkHTTPRequest "POST" "https://auth.example.com/token"
                 (<["Content-Type" := "application/x-www-form-urlencoded"]> ∅)
                 (BodyRaw "grant_type=refresh_token&refresh_token=refresh-me&client_id=client-123"))] /\
    LoadTokens w' = Ok (Some (<["remote" := stored]> (<["remote" := Fixture.staleToken]> ∅))) /\
    tok_AccessToken stored = "fresh" /\
    tok_RefreshToken stored = "refresh-me" /\
    tok_ExpiresAt stored = (1700000000 + 3600)%Z.
Proof.
  exact (RefreshOAuthToken_success Scenario.env "remote" Fixture.withOAuth
           Fixture.staleToken Fixture.worldWithStaleToken
           (mkOAuthConfig "https://auth.example.com/authorize"
              "https://auth.example.com/token" "" "client-123" "" [] "" "")
           Scenario.tokenResponse Scenario.freshToken
           eq_refl ltac:(discriminate) eq_refl eq_refl eq_refl eq_refl eq_refl).
Defined.

Lemma GetTokenForServer_after_refresh_witness :
  exists w',
    GetTokenForServer Scenario.env "remote" Fixture.withOAuth Fixture.worldWithStaleToken
    = (Done ("fresh", None), w') /\
    forall w2,
      w_tokens_file w2 = w_tokens_file w' ->
      (unixNow w2 <= unixNow Fixture.worldWithStaleToken + 3600 - 60)%Z ->
      GetTokenForServer Scenario.env "remote" Fixture.withOAuth w2
      = (Done ("fresh", None), w2).
Proof.
  refine (GetTokenForServer_after_refresh Scenario.env "remote" Fixture.withOAuth
            Fixture.worldWithStaleToken (Some (<["remote" := Fixture.staleToken]> ∅))
            Fixture.staleToken
            (mkOAuthConfig "https://auth.example.com/authorize"
               "https://auth.example.com/token" "" "client-123" "" [] "" "")
            Scenario.tokenResponse Scenario.freshToken
            eq_refl _ _ _ eq_refl _ eq_refl eq_refl eq_refl eq_refl eq_refl _ _).
  - vm_compute; reflexivity.
  - vm_compute. intros [H|H]; exact (H eq_refl).
  - discriminate.
  - discriminate.
  - discriminate.
  - reflexivity.
Defined.

Lemma RefreshOAuthToken_failure_keeps_tokens_witness :
  w_tokens_file
    (RefreshOAuthToken Fixture.env "remote" Fixture.withOAuth Fixture.staleToken
       Fixture.worldWithStaleToken).2
  = FileData (Some (<["remote" := Fixture.staleToken]> ∅)).
Proof.
  refine (proj1 (RefreshOAuthToken_failure_keeps_tokens Fixture.env "remote"
                   Fixture.withOAuth Fixture.staleToken Fixture.worldWithStaleToken
                   "connection refused" _ _)).
  vm_compute; reflexivity.
Defined.

Lemma getTools_then_cached_witness :
  getTools Scenario.env Scenario.daemonListed "remote" Scenario.worldListed
  = (Done (Scenario.daemonListed, Ok [Scenario.echo]), Scenario.worldListed).
Proof.
  refine (getTools_then_cached Scenario.env Fixture.daemon0 "remote" Fixture.world0
            Scenario.daemonListed [Scenario.echo] Scenario.worldListed Scenario.worldListed
            eq_refl _ _).
  - vm_compute; reflexivity.
  - vm_compute; reflexivity.
Defined.

Lemma handleCommand_without_server_witness :
  exists r,
    handleCommand Fixture.env Fixture.daemon1 (mkDaemonCommand "restart" "" "" None)
      Fixture.world0 = (Done (Fixture.daemon1, r), Fixture.world0) /\
    r = errResponse ErrUnknownAction "unknown action: restart".
Proof.
  destruct (handleCommand_without_server Fixture.env Fixture.daemon1
              (mkDaemonCommand "restart" "" "" None) Fixture.world0
              ltac:(discriminate) ltac:(discriminate) ltac:(discriminate)
              ltac:(discriminate))
    as (r & Hrun & _ & _ & Hunknown).
  exists r. split; [exact Hrun|]. apply Hunknown.
  rewrite !elem_of_cons, elem_of_nil.
  intros [H|[H|[H|[H|[H|H]]]]]; try discriminate H. exact H.
Defined.



Lemma unconfigured_server_codes_witness :
  Main.listTools Scenario.env "ghost" Fixture.worldWithConfig1
  = (Done (errResponse "NOT_FOUND" "Server 'ghost' not configured. Run --servers to list."),
     Fixture.worldWithConfig1) /\
  Main.daemonTools Scenario.env Fixture.daemon0 "ghost" Fixture.worldWithConfig1
  = (Done (Fixture.daemon0, errResponse "MCP_ERROR" "server 'ghost' not configured"),
     Fixture.worldWithConfig1).
Proof.
  destruct (unconfigured_server_codes Scenario.env Fixture.daemon0 Fixture.worldWithConfig1
              "ghost" "echo" "{}" (Some ∅) eq_refl eq_refl ltac:(discriminate)
              ltac:(discriminate) eq_refl)
    as (Hlist & _ & _ & Htools & _).
  split; [exact Hlist|exact Htools].
Defined.

Lemma invalid_arguments_before_network_witness :
  Main.callTool Scenario.env "remote" "echo" "[1,2" Fixture.worldWithConfig1
  = (Done (errResponse "INVALID_JSON"
             "Invalid JSON arguments: unexpected end of JSON input"),
     Fixture.worldWithConfig1).
Proof.
  exact (proj2 (invalid_arguments_before_network Scenario.env Fixture.daemon0
                  Fixture.worldWithConfig1 Fixture.config1 "remote" "echo" "[1,2"
                  "unexpected end of JSON input" eq_refl eq_refl)).
Defined.

Lemma exchangeCode_then_lookup_witness :
  exists w',
    exchangeCode Scenario.env "remote" (fc_discovery Fixture.flowContext) "code-1"
      "client-123" "" "0123456789abcdef" Fixture.world0 = (Done None, w') /\
    LoadTokens w' =
      Ok (Some (<["remote" :=
                   mkTokenData "fresh" "" 3600 (unixNow Fixture.world0 + 3600) ""]> ∅)) /\
    forall w2,
      w_tokens_file w2 = w_tokens_file w' ->
      (unixNow w2 <= unixNow Fixture.world0 + 3600 - 60)%Z ->
      GetTokenForServer Scenario.env "remote" Fixture.withOAuth w2
      = (Done ("fresh", None), w2).
Proof.
  refine (exchangeCode_then_lookup Scenario.env "remote" Fixture.withOAuth
            (fc_discovery Fixture.flowContext) "code-1" "client-123" ""
            "0123456789abcdef" Fixture.world0 Scenario.tokenResponse Scenario.freshToken
            eq_refl _ _ _ eq_refl _).
  - vm_compute; reflexivity.
  - left. reflexivity.
  - vm_compute; reflexivity.
  - reflexivity.
Defined.

Lemma DoOAuthFlow_stores_only_after_exchange_witness :
  (DoOAuthFlow Scenario.env "remote" Fixture.withOAuth Fixture.world0).1 = Done None.
Proof.
  refine (proj1 (DoOAuthFlow_stores_only_after_exchange Scenario.env "remote"
                   Fixture.withOAuth Fixture.world0 _
                   (DoOAuthFlow Scenario.env "remote" Fixture.withOAuth Fixture.world0).2
                   _ _)).
  - apply surjective_pairing.
  - vm_compute. discriminate.
Defined.

Lemma DoOAuthFlow_null_registrations_panics_witness :
  exists w',
    DoOAuthFlow Scenario.env "remote" Scenario.unregistered Scenario.worldNullRegistrations
    = (Panic, w') /\
    newEvents Scenario.worldNullRegistrations w' =
      [EvHTTP (registrationRequest Scenario.env "https://auth.example.com/register"
                 redirectURI "")] /\
    w_registrations_file w' = FileData None.
Proof.
  refine (DoOAuthFlow_null_registrations_panics Scenario.env "remote" Scenario.unregistered
            Scenario.unregisteredDiscovery Scenario.worldNullRegistrations
            (mkHTTPResponse 201 Fixture.jsonHeader (Ok Scenario.docRegistration))
            Scenario.registration eq_refl _ _ _ eq_refl eq_refl eq_refl _ _ _).
  - discriminate.
  - discriminate.
  - discriminate.
  - vm_compute; reflexivity.
  - right. reflexivity.
  - vm_compute; reflexivity.
Defined.

Lemma SaveRegistration_then_reused_witness :
  clientCredentials Scenario.env "remote" Fixture.remote Scenario.unregisteredDiscovery ""
    Scenario.worldRegistered
  = (Done ("dyn-1", ""), Scenario.worldRegistered).
Proof.
  refine (SaveRegistration_then_reused Scenario.env "remote" Scenario.registration
            Fixture.remote Scenario.unregisteredDiscovery "" Fixture.world0
            Scenario.worldRegistered _ I _).
  - vm_compute; reflexivity.
  - discriminate.
Defined.

Lemma Initialize_session_roundtrip_witness :
  Initialize Fixture.env (SetOAuthToken "tok-1" Fixture.client0) Fixture.worldInitialized
  = (Done (SetSessionID "session-1" (SetOAuthToken "tok-1" Fixture.client0), None),
     Fixture.worldInitialized).
Proof.
  refine (Initialize_session_roundtrip Fixture.env Fixture.client0 Fixture.world0
            Fixture.clientInitialized Fixture.worldInitialized
            (SetOAuthToken "tok-1" Fixture.client0) Fixture.worldInitialized
            eq_refl _ eq_refl eq_refl _ _ eq_refl eq_refl eq_refl).
  - intros sessions [= <-]. reflexivity.
  - vm_compute; reflexivity.
  - discriminate.
Defined.

